(** * nomad-ops: the Nomad cluster client (backend/interfaces/nomadcluster)

    A shallow embedding of [client.go]: the change classifier [hasUpdate],
    the cluster state reader [GetCurrentClusterState], the apply protocol
    [UpdateJob] and the event handler of [SubscribeJobChanges], with the
    properties the design document states about them.

    Go strings are byte sequences and are modelled as [string]; Go maps of
    type [map[string]string] are reference objects and live in a store of
    map objects; the scheduler behind [c.client] is a record of answers,
    and every call made to it is appended to a log. *)

From Stdlib Require Import Ascii.
From stdpp Require Import gmap strings list.

Set Default Proof Using "Type".

(** * Part I: the model *)

(** ** Strings *)

Module strings.

(** [strings.ToLower], on the ASCII letters.  Go lowers every rune; no
    rune outside ASCII lowers to one of the bytes of ["not found"], the
    only text this program looks for in a lowered string. *)
Definition lower_byte (c : ascii) : ascii :=
  let n := nat_of_ascii c in
  if (65 <=? n) && (n <=? 90) then ascii_of_nat (n + 32) else c.

Fixpoint ToLower (s : string) : string :=
  match s with
  | EmptyString => EmptyString
  | String c s' => String (lower_byte c) (ToLower s')
  end.

Fixpoint HasPrefix (s prefix : string) : bool :=
  match prefix, s with
  | EmptyString, _ => true
  | String _ _, EmptyString => false
  | String p prefix', String c s' =>
      if Ascii.eqb p c then HasPrefix s' prefix' else false
  end.

(** [strings.Contains s substr]: [substr] starts at some offset of [s]. *)
Fixpoint Contains (s substr : string) : bool :=
  HasPrefix s substr ||
  match s with
  | EmptyString => false
  | String _ s' => Contains s' substr
  end.

End strings.

(** An [error] is known by its text, [err.Error()]. *)
#[local] Abbreviation error := string (only parsing).

(** ** Metadata keys *)

Definition metaKeyOps : string := "nomadops".
Definition metaKeySrcID : string := "nomadopssrcid".
Definition metaKeySrcUrl : string := "nomadopssrcurl".
Definition metaKeySrcCommit : string := "nomadopssrccommit".
Definition metaKeyForceRestart : string := "nomadopsforcerestart".

(** [fmt.Sprintf("Meta[%s]", key)] *)
Definition metaFieldName (key : string) : string := "Meta[" +:+ key +:+ "]".

(** ** The store of map objects

    A value of type [map[string]string] is [nil] or a reference to a map
    object; two references to one object see each other's writes. *)

Definition loc : Type := positive.

Abbreviation MapRef := (option loc).

(** ** Structs of the Nomad API and of the application

    One module per struct, with the fields this client reads or writes. *)

Module FieldDiff.
Record t := { Type_ : string; Name : string; Old : string; New : string }.
End FieldDiff.

Module ObjectDiff.
#[warnings="-register-all"]
Inductive t := Build {
  Type_ : string;
  Name : string;
  Fields : list FieldDiff.t;
  Objects : list t;
}.
End ObjectDiff.

Module TaskDiff.
Record t := {
  Type_ : string;
  Name : string;
  Fields : list FieldDiff.t;
  Objects : list ObjectDiff.t;
}.
End TaskDiff.

Module TaskGroupDiff.
Record t := {
  Type_ : string;
  Name : string;
  Fields : list FieldDiff.t;
  Objects : list ObjectDiff.t;
  Tasks : list TaskDiff.t;
}.
End TaskGroupDiff.

Module JobDiff.
Record t := {
  Type_ : string;
  ID : string;
  Fields : list FieldDiff.t;
  Objects : list ObjectDiff.t;
  TaskGroups : list TaskGroupDiff.t;
}.
End JobDiff.

(** [UpdateJob] asks for the plan with [diff = true], so the response
    carries its diff. *)
Module JobPlanResponse.
Record t := { Diff : JobDiff.t }.
End JobPlanResponse.

(** [api.Job]: [ID], [Name] and [Namespace] are [*string]. *)
Module Job.
Record t := {
  ID : option string;
  Name : option string;
  Namespace : option string;
  Meta : MapRef;
}.
End Job.

Module JobListStub.
Record t := { ID : string; Name : string }.
End JobListStub.

Module Deployment.
Record t := { JobID : string; Status : string }.
End Deployment.

(** The namespace [UpdateJob] registers carries a map literal. *)
Module Namespace.
Record t := { Name : string; Meta : gmap string string }.
End Namespace.

Module QueryOptions.
Record t := { Namespace : string; Region : string }.
End QueryOptions.

Module WriteOptions.
Record t := { Namespace : string; Region : string }.
End WriteOptions.

Module Source.
Record t := {
  ID : string;
  URL : string;
  Namespace : string;
  Region : string;
  CreateNamespace : bool;
  Paused : bool;
  Force : bool;
}.
End Source.

Module GitInfo.
Record t := { GitCommit : string }.
End GitInfo.

(** [application.JobInfo] embeds [*api.Job]; [job.Meta] is [job.Job.Meta]. *)
Module JobInfo.
Record t := { Job : Job.t; GitInfo : GitInfo.t }.
End JobInfo.

Module DeploymentStatus.
Record t := { Status : string }.
End DeploymentStatus.

Module UpdateJobInfo.
Record t := { Updated : bool; DeploymentStatus : DeploymentStatus.t }.
End UpdateJobInfo.

Module ClusterState.
Record t := { CurrentJobs : gmap string JobInfo.t }.
End ClusterState.

Module GetCurrentClusterStateOptions.
Record t := { Source : Source.t }.
End GetCurrentClusterStateOptions.

(** An event of the stream, with what [e.Job()] and [e.Deployment()]
    return for it: a decoding error, or the (possibly nil) object. *)
Module Event.
Record t := {
  Type_ : string;
  Job : error + option Job.t;
  Deployment : error + option Deployment.t;
}.
End Event.

(** A batch of the stream, with what [events.IsHeartbeat()] returns. *)
Module Events.
Record t := { IsHeartbeat : bool; Events : list Event.t }.
End Events.

(** ** The scheduler and the world *)

(** The calls this client makes through [c.client].  A job is passed by
    pointer; the log keeps the contents of its metadata at the call. *)
Inductive Call :=
| NamespacesRegister (ns : Namespace.t) (q : WriteOptions.t)
| JobsPlan (job : Job.t) (meta : gmap string string) (diff : bool) (q : WriteOptions.t)
| JobsLatestDeployment (jobID : string) (q : QueryOptions.t)
| JobsRegister (job : Job.t) (meta : gmap string string) (q : WriteOptions.t)
| JobsList (q : QueryOptions.t)
| JobsInfo (jobID : string) (q : QueryOptions.t).

(** What the scheduler answers.  [LatestDeployment] is kept as the pair
    [(deployment, err)] the code receives, since the code looks at each
    half on its own. *)
Module Scheduler.
Record t := {
  NamespacesRegister : Namespace.t → WriteOptions.t → option error;
  JobsPlan : Job.t → gmap string string → bool → WriteOptions.t →
             error + JobPlanResponse.t;
  JobsLatestDeployment : string → QueryOptions.t →
                         option Deployment.t * option error;
  JobsRegister : Job.t → gmap string string → WriteOptions.t → option error;
  JobsList : QueryOptions.t → error + list JobListStub.t;
  JobsInfo : string → QueryOptions.t → error + Job.t;
}.
End Scheduler.

Record World := {
  maps : gmap loc (gmap string string);
  calls : list Call;
}.

(** What a call of this client comes back with: a value, an error, or a
    panic (a nil pointer dereferenced). *)
Inductive Result (A : Type) :=
| Ok (a : A)
| Err (e : error)
| Panic.

Arguments Ok {A} a.
Arguments Err {A} e.
Arguments Panic {A}.

Definition record (c : Call) (w : World) : World :=
  {| maps := maps w; calls := calls w ++ [c] |}.

(** The entries behind a map value; a nil map reads as an empty one. *)
Definition entries (w : World) (m : MapRef) : gmap string string :=
  match m with
  | None => ∅
  | Some l => default ∅ (maps w !! l)
  end.

(** [m[key]]: the zero value when the key is absent. *)
Definition index (m : gmap string string) (key : string) : string :=
  default "" (m !! key).

(** [map[string]string{}]: a new, empty map object. *)
Definition makeMap (w : World) : loc * World :=
  let l := fresh (dom (maps w)) in
  (l, {| maps := <[l := ∅]> (maps w); calls := calls w |}).

(** [m[key] = value], on the object [l]. *)
Definition assign (l : loc) (key value : string) (w : World) : World :=
  {| maps := <[l := <[key := value]> (entries w (Some l))]> (maps w);
     calls := calls w |}.

(** ** The change classifier *)

(** [len(xs) > 0] *)
Definition nonempty {A} (xs : list A) : bool :=
  match xs with [] => false | _ :: _ => true end.

(** The inner loop of [hasUpdate]: some task has a field or object diff. *)
Fixpoint tasksChanged (tasks : list TaskDiff.t) : bool :=
  match tasks with
  | [] => false
  | task :: rest =>
      if nonempty (TaskDiff.Fields task) then true
      else if nonempty (TaskDiff.Objects task) then true
      else tasksChanged rest
  end.

(** The loop of [hasUpdate] over the task groups: it returns at the first
    group with a field or object diff of its own or of one of its tasks. *)
Fixpoint taskGroupsChanged (grps : list TaskGroupDiff.t) : bool :=
  match grps with
  | [] => false
  | taskGrp :: rest =>
      if nonempty (TaskGroupDiff.Fields taskGrp) then true
      else if nonempty (TaskGroupDiff.Objects taskGrp) then true
      else if tasksChanged (TaskGroupDiff.Tasks taskGrp) then true
      else taskGroupsChanged rest
  end.

(** The condition of the inner [if] of [hasUpdate], reached with a
    non-empty [fieldDiff]: more than one field, or a first field that is
    neither the commit nor the forced restart, or one of the flags. *)
Definition fieldDiffCounts (fieldDiff : list FieldDiff.t) (restart force : bool) : bool :=
  match fieldDiff with
  | [] => false
  | f0 :: _ =>
      negb (length fieldDiff =? 1)
      || (negb (String.eqb (FieldDiff.Name f0) (metaFieldName metaKeySrcCommit))
          && negb (String.eqb (FieldDiff.Name f0) (metaFieldName metaKeyForceRestart)))
      || force || restart
  end.

Definition hasUpdate (diffResp : JobPlanResponse.t) (restart force : bool) : bool :=
  let hasDiff := false in
  if nonempty (JobDiff.Objects (JobPlanResponse.Diff diffResp)) then true
  else
    let fieldDiff := JobDiff.Fields (JobPlanResponse.Diff diffResp) in
    if nonempty fieldDiff && fieldDiffCounts fieldDiff restart force then true
    else if taskGroupsChanged (JobDiff.TaskGroups (JobPlanResponse.Diff diffResp)) then true
    else hasDiff.

(** ** Query and write options *)

Definition getQueryOptsCtx (src : Source.t) : QueryOptions.t :=
  let opts := {| QueryOptions.Namespace := ""; QueryOptions.Region := "" |} in
  let opts :=
    if negb (String.eqb (Source.Namespace src) "")
    then {| QueryOptions.Namespace := Source.Namespace src;
            QueryOptions.Region := QueryOptions.Region opts |}
    else opts in
  let opts :=
    if negb (String.eqb (Source.Region src) "")
    then {| QueryOptions.Namespace := QueryOptions.Namespace opts;
            QueryOptions.Region := Source.Region src |}
    else opts in
  opts.

Definition getWriteOptions (src : Source.t) : WriteOptions.t :=
  let opts := {| WriteOptions.Namespace := ""; WriteOptions.Region := "" |} in
  let opts :=
    if negb (String.eqb (Source.Namespace src) "")
    then {| WriteOptions.Namespace := Source.Namespace src;
            WriteOptions.Region := WriteOptions.Region opts |}
    else opts in
  let opts :=
    if negb (String.eqb (Source.Region src) "")
    then {| WriteOptions.Namespace := WriteOptions.Namespace opts;
            WriteOptions.Region := Source.Region src |}
    else opts in
  opts.

(** ** The apply protocol *)

(** [job.Meta = metadata] *)
Definition setMeta (job : JobInfo.t) (metadata : MapRef) : JobInfo.t :=
  {| JobInfo.Job :=
       {| Job.ID := Job.ID (JobInfo.Job job);
          Job.Name := Job.Name (JobInfo.Job job);
          Job.Namespace := Job.Namespace (JobInfo.Job job);
          Job.Meta := metadata |};
     JobInfo.GitInfo := JobInfo.GitInfo job |}.

(** The tagging step of [UpdateJob], from [metadata := job.Job.Meta] to
    [job.Meta = metadata].  [now] is [time.Now().Format(time.RFC3339Nano)].
    The job is passed by pointer: the step yields the job as it is left. *)
Definition claimJob (now : string) (src : Source.t) (job : JobInfo.t)
    (restart : bool) (w : World) : JobInfo.t * World :=
  let '(metadata, w) :=
    match Job.Meta (JobInfo.Job job) with
    | None => makeMap w
    | Some l => (l, w)
    end in
  let w := assign metadata metaKeyOps "true" w in
  let w := assign metadata metaKeySrcUrl (Source.URL src) w in
  let w := assign metadata metaKeySrcID (Source.ID src) w in
  let w := assign metadata metaKeySrcCommit
             (GitInfo.GitCommit (JobInfo.GitInfo job)) w in
  let w := if restart then assign metadata metaKeyForceRestart now w else w in
  (setMeta job (Some metadata), w).

(** The first step of [UpdateJob]: with [CreateNamespace], make sure the
    namespace of the job exists.  [Some err] is an early [return nil, err]. *)
Definition ensureNamespace (c : Scheduler.t) (src : Source.t) (job : JobInfo.t)
    (w : World) : option error * World :=
  if Source.CreateNamespace src then
    match Job.Namespace (JobInfo.Job job) with
    | None =>
        (Some "require a namespace to be set in conjunction with 'CreateNamespace'", w)
    | Some name =>
        let ns := {| Namespace.Name := name;
                     Namespace.Meta := {[ metaKeyOps := "true" ]} |} in
        let w := record (NamespacesRegister ns (getWriteOptions src)) w in
        match Scheduler.NamespacesRegister c ns (getWriteOptions src) with
        | Some err => (Some err, w)
        | None => (None, w)
        end
    end
  else (None, w).

(** [UpdateJob] up to the plan: the namespace, the tagging step, and the
    dry run with [diff = true].  The job comes back as the code leaves it. *)
Definition planJob (c : Scheduler.t) (now : string) (src : Source.t)
    (job : JobInfo.t) (restart : bool) (w : World)
    : Result JobPlanResponse.t * JobInfo.t * World :=
  match ensureNamespace c src job w with
  | (Some err, w) => (Err err, job, w)
  | (None, w) =>
      let '(job, w) := claimJob now src job restart w in
      let metadata := entries w (Job.Meta (JobInfo.Job job)) in
      let w := record (JobsPlan (JobInfo.Job job) metadata true (getWriteOptions src)) w in
      match Scheduler.JobsPlan c (JobInfo.Job job) metadata true (getWriteOptions src) with
      | inl err => (Err err, job, w)
      | inr resp => (Ok resp, job, w)
      end
  end.

(** The test on the error of [LatestDeployment]: the error [UpdateJob]
    returns with, if any. *)
Definition fatalStatusError (err : option error) : option error :=
  match err with
  | Some e =>
      if negb (strings.Contains (strings.ToLower e) "not found")
      then Some e else None
  | None => None
  end.

(** [UpdateJob] from [deploymentStatus := ""] to the status being known.
    [*job.ID] panics on a nil [ID]. *)
Definition latestDeploymentStatus (c : Scheduler.t) (src : Source.t)
    (job : JobInfo.t) (w : World) : Result string * World :=
  let deploymentStatus := "" in
  match Job.ID (JobInfo.Job job) with
  | None => (Panic, w)
  | Some id =>
      let w := record (JobsLatestDeployment id (getQueryOptsCtx src)) w in
      let '(deployment, err) :=
        Scheduler.JobsLatestDeployment c id (getQueryOptsCtx src) in
      match fatalStatusError err with
      | Some e => (Err e, w)
      | None =>
          match deployment with
          | Some d => (Ok (Deployment.Status d), w)
          | None => (Ok deploymentStatus, w)
          end
      end
  end.

Definition updateJobInfo (updated : bool) (deploymentStatus : string) : UpdateJobInfo.t :=
  {| UpdateJobInfo.Updated := updated;
     UpdateJobInfo.DeploymentStatus :=
       {| DeploymentStatus.Status := deploymentStatus |} |}.

(** The rest of [UpdateJob], from the classifier on, with the plan and the
    deployment status at hand. *)
Definition submitJob (c : Scheduler.t) (src : Source.t) (job : JobInfo.t)
    (resp : JobPlanResponse.t) (restart : bool) (deploymentStatus : string)
    (w : World) : Result UpdateJobInfo.t * World :=
  if negb (hasUpdate resp restart (Source.Force src)) then
    (Ok (updateJobInfo false deploymentStatus), w)
  else if negb (Source.Paused src) then
    let metadata := entries w (Job.Meta (JobInfo.Job job)) in
    let w := record (JobsRegister (JobInfo.Job job) metadata (getWriteOptions src)) w in
    match Scheduler.JobsRegister c (JobInfo.Job job) metadata (getWriteOptions src) with
    | Some err => (Err err, w)
    | None => (Ok (updateJobInfo true deploymentStatus), w)
    end
  else (Ok (updateJobInfo true deploymentStatus), w).

(** [UpdateJob]: the outcome, the job as the call leaves it, and the world.
    Logging is left out. *)
Definition UpdateJob (c : Scheduler.t) (now : string) (src : Source.t)
    (job : JobInfo.t) (restart : bool) (w : World)
    : Result UpdateJobInfo.t * JobInfo.t * World :=
  match planJob c now src job restart w with
  | (Ok resp, job, w) =>
      match latestDeploymentStatus c src job w with
      | (Ok deploymentStatus, w) =>
          let '(outcome, w) := submitJob c src job resp restart deploymentStatus w in
          (outcome, job, w)
      | (Err err, w) => (Err err, job, w)
      | (Panic, w) => (Panic, job, w)
      end
  | (Err err, job, w) => (Err err, job, w)
  | (Panic, job, w) => (Panic, job, w)
  end.

(** ** The cluster state reader *)

(** [&application.JobInfo{Job: j}]: the other fields are zero. *)
Definition jobInfoOf (j : Job.t) : JobInfo.t :=
  {| JobInfo.Job := j; JobInfo.GitInfo := {| GitInfo.GitCommit := "" |} |}.

(** The loop of [GetCurrentClusterState] over the listing, with the
    [CurrentJobs] collected so far. *)
Fixpoint collectJobs (c : Scheduler.t) (src : Source.t)
    (joblist : list JobListStub.t) (currentJobs : gmap string JobInfo.t)
    (w : World) : Result ClusterState.t * World :=
  match joblist with
  | [] => (Ok {| ClusterState.CurrentJobs := currentJobs |}, w)
  | job :: rest =>
      let w := record (JobsInfo (JobListStub.Name job) (getQueryOptsCtx src)) w in
      match Scheduler.JobsInfo c (JobListStub.Name job) (getQueryOptsCtx src) with
      | inl err => (Err err, w)
      | inr j =>
          let m := entries w (Job.Meta j) in
          if size m =? 0 then collectJobs c src rest currentJobs w
          else if negb (String.eqb (index m metaKeySrcID) (Source.ID src))
          then collectJobs c src rest currentJobs w
          else collectJobs c src rest
                 (<[JobListStub.Name job := jobInfoOf j]> currentJobs) w
      end
  end.

Definition GetCurrentClusterState (c : Scheduler.t)
    (opts : GetCurrentClusterStateOptions.t) (w : World)
    : Result ClusterState.t * World :=
  let src := GetCurrentClusterStateOptions.Source opts in
  let w := record (JobsList (getQueryOptsCtx src)) w in
  match Scheduler.JobsList c (getQueryOptsCtx src) with
  | inl err => (Err err, w)
  | inr joblist => collectJobs c src joblist ∅ w
  end.

(** ** The event handler of [SubscribeJobChanges] *)

(** How a run of [eventHandler] over a batch ends: at the end of the
    batch, at a [return] inside the loop, or in a panic. *)
Inductive HandlerExit := Finished | Returned | Panicked.

(** [eventHandler] on the events of a batch: the job names the callback
    [cb] is called with, in order, and how the run ends. *)
Fixpoint eventHandler (events : list Event.t) : list string * HandlerExit :=
  match events with
  | [] => ([], Finished)
  | e :: rest =>
      if String.eqb (Event.Type_ e) "JobRegistered"
         || String.eqb (Event.Type_ e) "JobDeregistered" then
        match Event.Job e with
        | inl err => ([], Returned)
        | inr None => ([], Panicked)
        | inr (Some job) =>
            match Job.ID job with
            | None => ([], Panicked)
            | Some id =>
                let '(names, exit) := eventHandler rest in (id :: names, exit)
            end
        end
      else if String.eqb (Event.Type_ e) "DeploymentStatusUpdate" then
        match Event.Deployment e with
        | inl err => ([], Returned)
        | inr None => ([], Panicked)
        | inr (Some dep) =>
            let '(names, exit) := eventHandler rest in
            (Deployment.JobID dep :: names, exit)
        end
      else eventHandler rest
  end.

(** The loop of the subscription over the batches it receives before its
    context is done: the job names the callback is called with, and
    whether the loop is still running ([false] after a panic). *)
Fixpoint subscriptionLoop (batches : list Events.t) : list string * bool :=
  match batches with
  | [] => ([], true)
  | events :: rest =>
      if Events.IsHeartbeat events then subscriptionLoop rest
      else
        match eventHandler (Events.Events events) with
        | (names, Panicked) => (names, false)
        | (names, _) =>
            let '(later, running) := subscriptionLoop rest in
            (names ++ later, running)
        end
  end.

(** ** Vocabulary of the design document *)

(** The two bookkeeping fields: the source revision and the restart nonce. *)
Definition revisionField : string := "Meta[nomadopssrccommit]".
Definition restartNonceField : string := "Meta[nomadopsforcerestart]".

(** A task group is quiet when neither it nor any of its tasks has a field
    or object diff. *)
Definition taskQuiet (t : TaskDiff.t) : Prop :=
  TaskDiff.Fields t = [] ∧ TaskDiff.Objects t = [].

Definition taskGroupQuiet (g : TaskGroupDiff.t) : Prop :=
  TaskGroupDiff.Fields g = [] ∧ TaskGroupDiff.Objects g = [] ∧
  Forall taskQuiet (TaskGroupDiff.Tasks g).

(** Some task group, or some task within it, has a nonempty field or
    object diff. *)
Definition subgroupDiff (d : JobDiff.t) : Prop :=
  ∃ g, g ∈ JobDiff.TaskGroups d ∧
    (TaskGroupDiff.Fields g ≠ [] ∨ TaskGroupDiff.Objects g ≠ [] ∨
     ∃ t, t ∈ TaskGroupDiff.Tasks g ∧
          (TaskDiff.Fields t ≠ [] ∨ TaskDiff.Objects t ≠ [])).

(** The only top-level field entry of the diff is one field named [name]. *)
Definition onlyTopLevelField (d : JobDiff.t) (name : string) : Prop :=
  ∃ f, JobDiff.Fields d = [f] ∧ FieldDiff.Name f = name.

(** The whole diff is one top-level field named [name]: no top-level
    object entry, and every task group quiet. *)
Definition onlyChange (d : JobDiff.t) (name : string) : Prop :=
  JobDiff.Objects d = [] ∧ onlyTopLevelField d name ∧
  Forall taskGroupQuiet (JobDiff.TaskGroups d).

(** A workload is owned by a source when its metadata carries the
    ownership marker and the identifier of the source. *)
Definition owned (src : Source.t) (m : gmap string string) : Prop :=
  m !! metaKeyOps = Some "true" ∧ m !! metaKeySrcID = Some (Source.ID src).

(** What the reader filters on: metadata that is not empty and whose
    source identifier reads as the identifier of the source. *)
Definition claimedBy (src : Source.t) (m : gmap string string) : Prop :=
  m ≠ ∅ ∧ index m metaKeySrcID = Source.ID src.

(** Two byte strings that differ at most in the case of ASCII letters. *)
Definition sameIgnoringCase (s t : string) : Prop :=
  strings.ToLower s = strings.ToLower t.

(** The text [e] contains [needle] in some mix of upper and lower case. *)
Definition mentions (e needle : string) : Prop :=
  ∃ before found after,
    e = before +:+ found +:+ after ∧ sameIgnoringCase found needle.

(** The tags of the design document: ownership marker = true, the source
    identifier, the origin URL, the revision, and the restart nonce only
    if a restart is requested. *)
Definition ownershipTags (now : string) (src : Source.t) (job : JobInfo.t)
    (restart : bool) : gmap string string :=
  {[ metaKeyOps := "true";
     metaKeySrcID := Source.ID src;
     metaKeySrcUrl := Source.URL src;
     metaKeySrcCommit := GitInfo.GitCommit (JobInfo.GitInfo job) ]}
  ∪ (if restart then {[ metaKeyForceRestart := now ]} else ∅).

(** Metadata [m] with the tags set: a tag wins over an entry of [m] with
    its key, every other entry of [m] stays. *)
Definition taggedMetadata (now : string) (src : Source.t) (job : JobInfo.t)
    (restart : bool) (m : gmap string string) : gmap string string :=
  ownershipTags now src job restart ∪ m.

(** Every job of the list can be fetched: [Info] answers with a job. *)
Definition fetchable (c : Scheduler.t) (src : Source.t)
    (joblist : list JobListStub.t) : Prop :=
  Forall (λ stub, ∃ j,
    Scheduler.JobsInfo c (JobListStub.Name stub) (getQueryOptsCtx src) = inr j)
    joblist.

(** The kinds of event the handler looks at. *)
Definition watched (e : Event.t) : bool :=
  String.eqb (Event.Type_ e) "JobRegistered"
  || String.eqb (Event.Type_ e) "JobDeregistered"
  || String.eqb (Event.Type_ e) "DeploymentStatusUpdate".

(** The job an event is about: the job that was registered or
    deregistered, or the job a deployment belongs to. *)
Inductive notifies : Event.t → string → Prop :=
| notifies_job e job id :
    Event.Type_ e = "JobRegistered" ∨ Event.Type_ e = "JobDeregistered" →
    Event.Job e = inr (Some job) → Job.ID job = Some id →
    notifies e id
| notifies_deployment e dep :
    Event.Type_ e = "DeploymentStatusUpdate" →
    Event.Deployment e = inr (Some dep) →
    notifies e (Deployment.JobID dep).

(** The calls made from the world [w] to the later world [w']. *)
Definition issued (w w' : World) : list Call :=
  drop (length (calls w)) (calls w').

(** A submission: the call that registers a job. *)
Definition isSubmission (c : Call) : bool :=
  match c with
  | JobsRegister _ _ _ => true
  | _ => false
  end.

(** ** Sample inputs *)

Module sample.

Definition revisionChange : FieldDiff.t :=
  {| FieldDiff.Type_ := "Edited"; FieldDiff.Name := "Meta[nomadopssrccommit]";
     FieldDiff.Old := "abc"; FieldDiff.New := "def" |}.

Definition restartChange : FieldDiff.t :=
  {| FieldDiff.Type_ := "Added"; FieldDiff.Name := "Meta[nomadopsforcerestart]";
     FieldDiff.Old := ""; FieldDiff.New := "2023-01-02T03:04:05.000000006Z" |}.

Definition countChange : FieldDiff.t :=
  {| FieldDiff.Type_ := "Edited"; FieldDiff.Name := "Count";
     FieldDiff.Old := "1"; FieldDiff.New := "2" |}.

Definition plan (fields : list FieldDiff.t) (groups : list TaskGroupDiff.t)
    : JobPlanResponse.t :=
  {| JobPlanResponse.Diff :=
       {| JobDiff.Type_ := "Edited"; JobDiff.ID := "web";
          JobDiff.Fields := fields; JobDiff.Objects := [];
          JobDiff.TaskGroups := groups |} |}.

(** The plan of a job that is registered as it stands: no entry at all. *)
Definition emptyPlan : JobPlanResponse.t :=
  {| JobPlanResponse.Diff :=
       {| JobDiff.Type_ := "None"; JobDiff.ID := "web";
          JobDiff.Fields := []; JobDiff.Objects := [];
          JobDiff.TaskGroups := [] |} |}.

Definition quietGroup : TaskGroupDiff.t :=
  {| TaskGroupDiff.Type_ := "None"; TaskGroupDiff.Name := "web";
     TaskGroupDiff.Fields := []; TaskGroupDiff.Objects := [];
     TaskGroupDiff.Tasks :=
       [ {| TaskDiff.Type_ := "None"; TaskDiff.Name := "server";
            TaskDiff.Fields := []; TaskDiff.Objects := [] |} ] |}.

(** A group whose task has a field diff. *)
Definition editedGroup : TaskGroupDiff.t :=
  {| TaskGroupDiff.Type_ := "Edited"; TaskGroupDiff.Name := "web";
     TaskGroupDiff.Fields := []; TaskGroupDiff.Objects := [];
     TaskGroupDiff.Tasks :=
       [ {| TaskDiff.Type_ := "Edited"; TaskDiff.Name := "server";
            TaskDiff.Fields := [countChange]; TaskDiff.Objects := [] |} ] |}.

Definition source (createNamespace paused force : bool) : Source.t :=
  {| Source.ID := "s1"; Source.URL := "https://git.example.org/jobs.git";
     Source.Namespace := "ns1"; Source.Region := "";
     Source.CreateNamespace := createNamespace;
     Source.Paused := paused; Source.Force := force |}.

(** The job [web], whose metadata is the map object 1. *)
Definition web : JobInfo.t :=
  {| JobInfo.Job :=
       {| Job.ID := Some "web"; Job.Name := Some "web";
          Job.Namespace := Some "ns1"; Job.Meta := Some 1%positive |};
     JobInfo.GitInfo := {| GitInfo.GitCommit := "def" |} |}.

(** A job parsed without a [meta] block: its map is nil. *)
Definition bare : JobInfo.t :=
  {| JobInfo.Job :=
       {| Job.ID := Some "bare"; Job.Name := Some "bare";
          Job.Namespace := None; Job.Meta := None |};
     JobInfo.GitInfo := {| GitInfo.GitCommit := "def" |} |}.

Definition job (name : string) (meta : MapRef) : Job.t :=
  {| Job.ID := Some name; Job.Name := Some name;
     Job.Namespace := Some "ns1"; Job.Meta := meta |}.

(** Map objects: 1 is the metadata of the parsed job [web]; 2, 3 and 4 are
    the metadata of jobs the scheduler runs. *)
Definition world : World :=
  {| maps :=
       {[ 1%positive := {[ "team" := "core" ]};
          2%positive := {[ "nomadops" := "true"; "nomadopssrcid" := "s1" ]};
          3%positive := {[ "nomadopssrcid" := "s1" ]};
          4%positive := {[ "nomadops" := "true"; "nomadopssrcid" := "s2" ]} ]};
     calls := [] |}.

Definition running : Deployment.t :=
  {| Deployment.JobID := "web"; Deployment.Status := "running" |}.

Definition stub (name : string) : JobListStub.t :=
  {| JobListStub.ID := name; JobListStub.Name := name |}.

(** A scheduler that accepts every write, plans [planned], answers the
    status query with [status], and runs four jobs: [unmanaged] without
    metadata, [web] owned by [s1], [stray] with the identifier of [s1] and
    no ownership marker, and [other] owned by [s2]. *)
Definition scheduler (planned : JobPlanResponse.t)
    (status : option Deployment.t * option error) : Scheduler.t :=
  {| Scheduler.NamespacesRegister := λ _ _, None;
     Scheduler.JobsPlan := λ _ _ _ _, inr planned;
     Scheduler.JobsLatestDeployment := λ _ _, status;
     Scheduler.JobsRegister := λ _ _ _, None;
     Scheduler.JobsList := λ _,
       inr [stub "unmanaged"; stub "web"; stub "stray"; stub "other"];
     Scheduler.JobsInfo := λ name _,
       if String.eqb name "web" then inr (job name (Some 2%positive))
       else if String.eqb name "stray" then inr (job name (Some 3%positive))
       else if String.eqb name "other" then inr (job name (Some 4%positive))
       else inr (job name None) |}.

Definition registered (name : string) : Event.t :=
  {| Event.Type_ := "JobRegistered";
     Event.Job := inr (Some (job name None));
     Event.Deployment := inr None |}.

(** A registration event whose payload does not decode. *)
Definition malformed : Event.t :=
  {| Event.Type_ := "JobRegistered";
     Event.Job := inl "json: cannot unmarshal";
     Event.Deployment := inl "json: cannot unmarshal" |}.

Definition batch (events : list Event.t) : Events.t :=
  {| Events.IsHeartbeat := false; Events.Events := events |}.

End sample.

(** ** Further sample inputs: failures and other sources *)

Module scenario.

(** A source without an identifier, and a second source. *)
Definition anonymous : Source.t :=
  {| Source.ID := ""; Source.URL := "https://git.example.org/jobs.git";
     Source.Namespace := "ns1"; Source.Region := "";
     Source.CreateNamespace := false; Source.Paused := false;
     Source.Force := false |}.

Definition other : Source.t :=
  {| Source.ID := "s2"; Source.URL := "https://git.example.org/other.git";
     Source.Namespace := "ns1"; Source.Region := "eu";
     Source.CreateNamespace := false; Source.Paused := false;
     Source.Force := false |}.

(** A scheduler that answers the namespace registration with [nsErr], the
    plan with [planned], the registration of a job with [regErr], and that
    fails to fetch the job named [unreadable].  It lists [legacy], whose
    metadata is the map object 1 with no key of this client, then [web],
    [stray] and [other] as [sample.scheduler] has them. *)
Definition scheduler (nsErr : option error)
    (planned : error + JobPlanResponse.t) (regErr : option error)
    (unreadable : string) : Scheduler.t :=
  {| Scheduler.NamespacesRegister := λ _ _, nsErr;
     Scheduler.JobsPlan := λ _ _ _ _, planned;
     Scheduler.JobsLatestDeployment := λ _ _, (Some sample.running, None);
     Scheduler.JobsRegister := λ _ _ _, regErr;
     Scheduler.JobsList := λ _,
       inr [sample.stub "legacy"; sample.stub "web"; sample.stub "stray";
            sample.stub "other"];
     Scheduler.JobsInfo := λ name _,
       if String.eqb name unreadable
       then inl "Unexpected response code: 500 (rpc error)"
       else if String.eqb name "legacy"
       then inr (sample.job name (Some 1%positive))
       else if String.eqb name "web" then inr (sample.job name (Some 2%positive))
       else if String.eqb name "stray" then inr (sample.job name (Some 3%positive))
       else inr (sample.job name (Some 4%positive)) |}.

(** A deployment status update for the job [name]. *)
Definition deployed (name : string) : Event.t :=
  {| Event.Type_ := "DeploymentStatusUpdate";
     Event.Job := inr None;
     Event.Deployment :=
       inr (Some {| Deployment.JobID := name; Deployment.Status := "successful" |}) |}.

(** An event of a kind the handler does not look at. *)
Definition evaluated : Event.t :=
  {| Event.Type_ := "EvaluationUpdated";
     Event.Job := inr None; Event.Deployment := inr None |}.

Definition heartbeat : Events.t :=
  {| Events.IsHeartbeat := true; Events.Events := [] |}.

End scenario.

(** * Part II: properties *)

(** ** The change classifier *)

Section classifier.

Implicit Types (r : JobPlanResponse.t) (restart force : bool).

Lemma metaFieldName_commit : metaFieldName metaKeySrcCommit = revisionField.
Proof. reflexivity. Qed.

Lemma metaFieldName_restart : metaFieldName metaKeyForceRestart = restartNonceField.
Proof. reflexivity. Qed.

Lemma nonempty_true {A} (xs : list A) : nonempty xs = true ↔ xs ≠ [].
Proof. destruct xs; simpl; split; intros; congruence. Qed.

Lemma nonempty_false {A} (xs : list A) : nonempty xs = false ↔ xs = [].
Proof. destruct xs; simpl; split; intros; congruence. Qed.

Lemma tasksChanged_true tasks :
  tasksChanged tasks = true ↔
  ∃ t, t ∈ tasks ∧ (TaskDiff.Fields t ≠ [] ∨ TaskDiff.Objects t ≠ []).
Proof.
  induction tasks as [|t rest IH]; simpl.
  - split; [discriminate | intros (t & Hin & _); inversion Hin].
  - destruct (nonempty (TaskDiff.Fields t)) eqn:Hf.
    { split; [intros _ | done]. exists t. split; [left |].
      left. by apply nonempty_true. }
    destruct (nonempty (TaskDiff.Objects t)) eqn:Ho.
    { split; [intros _ | done]. exists t. split; [left |].
      right. by apply nonempty_true. }
    rewrite IH. apply nonempty_false in Hf, Ho.
    split.
    + intros (t' & Hin & H). exists t'. split; [by right | done].
    + intros (t' & Hin & H). apply elem_of_cons in Hin as [-> | Hin].
      * destruct H; congruence.
      * by exists t'.
Qed.

Lemma tasksChanged_false tasks :
  tasksChanged tasks = false ↔ Forall taskQuiet tasks.
Proof.
  induction tasks as [|t rest IH]; simpl.
  - split; [constructor | done].
  - rewrite Forall_cons. unfold taskQuiet at 1.
    destruct (TaskDiff.Fields t), (TaskDiff.Objects t); simpl;
      [rewrite IH; tauto | | |]; (split; [discriminate | intros [[? ?] _]; discriminate]).
Qed.

Lemma taskGroupsChanged_true grps :
  taskGroupsChanged grps = true ↔
  ∃ g, g ∈ grps ∧
    (TaskGroupDiff.Fields g ≠ [] ∨ TaskGroupDiff.Objects g ≠ [] ∨
     ∃ t, t ∈ TaskGroupDiff.Tasks g ∧
          (TaskDiff.Fields t ≠ [] ∨ TaskDiff.Objects t ≠ [])).
Proof.
  induction grps as [|g rest IH]; simpl.
  - split; [discriminate | intros (g & Hin & _); inversion Hin].
  - destruct (nonempty (TaskGroupDiff.Fields g)) eqn:Hf.
    { split; [intros _ | done]. exists g. split; [left |].
      left. by apply nonempty_true. }
    destruct (nonempty (TaskGroupDiff.Objects g)) eqn:Ho.
    { split; [intros _ | done]. exists g. split; [left |].
      right; left. by apply nonempty_true. }
    destruct (tasksChanged (TaskGroupDiff.Tasks g)) eqn:Ht.
    { split; [intros _ | done]. exists g. split; [left |].
      right; right. by apply tasksChanged_true. }
    rewrite IH. apply nonempty_false in Hf, Ho.
    split.
    + intros (g' & Hin & H). exists g'. split; [by right | done].
    + intros (g' & Hin & H). apply elem_of_cons in Hin as [-> | Hin].
      * destruct H as [H | [H | H]]; [congruence | congruence |].
        apply tasksChanged_true in H. congruence.
      * by exists g'.
Qed.

Lemma taskGroupsChanged_false grps :
  taskGroupsChanged grps = false ↔ Forall taskGroupQuiet grps.
Proof.
  induction grps as [|g rest IH]; simpl.
  - split; [constructor | done].
  - rewrite Forall_cons. unfold taskGroupQuiet at 1.
    rewrite <- tasksChanged_false.
    destruct (TaskGroupDiff.Fields g), (TaskGroupDiff.Objects g),
      (tasksChanged (TaskGroupDiff.Tasks g)); simpl;
      [| rewrite IH; tauto | | | | | |];
      (split; [discriminate | intros [(? & ? & ?) _]; discriminate]).
Qed.

(** Whatever the top-level entries and the flags are, a diff in a task
    group or task makes the pass count. *)
Lemma hasUpdate_subgroup r restart force :
  subgroupDiff (JobPlanResponse.Diff r) → hasUpdate r restart force = true.
Proof.
  intros H%taskGroupsChanged_true. unfold hasUpdate. rewrite H.
  by repeat case_match.
Qed.

(** An object entry at the top level makes the pass count. *)
Lemma hasUpdate_objects r restart force :
  JobDiff.Objects (JobPlanResponse.Diff r) ≠ [] → hasUpdate r restart force = true.
Proof. intros H%nonempty_true. unfold hasUpdate. by rewrite H. Qed.

(** With top-level field entries and one of the flags, the pass counts. *)
Lemma hasUpdate_fields_flag r restart force :
  JobDiff.Fields (JobPlanResponse.Diff r) ≠ [] →
  restart || force = true → hasUpdate r restart force = true.
Proof.
  intros Hf Hflag. unfold hasUpdate.
  destruct (nonempty (JobDiff.Objects _)); [done |].
  destruct (JobDiff.Fields _) as [|f0 fs]; [done |]. cbn [nonempty fieldDiffCounts andb].
  destruct restart, force; try discriminate;
    rewrite ?orb_true_r; done.
Qed.

(** C2. Noise suppression: when the whole diff is the one top-level field
    of the source revision, and neither a restart nor the force flag is
    set, [hasUpdate] returns false. *)
Theorem hasUpdate_revision_only r :
  onlyChange (JobPlanResponse.Diff r) revisionField →
  hasUpdate r false false = false.
Proof.
  intros (Hobj & (f & Hfields & Hname) & Hquiet).
  apply taskGroupsChanged_false in Hquiet.
  unfold hasUpdate. rewrite Hobj, Hfields, Hquiet. simpl.
  rewrite Hname. reflexivity.
Qed.

Lemma hasUpdate_revision_only_witness :
  hasUpdate (sample.plan [sample.revisionChange] [sample.quietGroup]) false false
  = false.
Proof.
  apply (hasUpdate_revision_only
           (sample.plan [sample.revisionChange] [sample.quietGroup])).
  split; [reflexivity |]. split.
  - exists sample.revisionChange. split; reflexivity.
  - repeat constructor.
Defined.

(** The restart nonce is suppressed in the same way. *)
Lemma hasUpdate_restart_nonce_only r :
  onlyChange (JobPlanResponse.Diff r) restartNonceField →
  hasUpdate r false false = false.
Proof.
  intros (Hobj & (f & Hfields & Hname) & Hquiet).
  apply taskGroupsChanged_false in Hquiet.
  unfold hasUpdate. rewrite Hobj, Hfields, Hquiet. simpl.
  rewrite Hname. reflexivity.
Qed.

(** C3, as the code has it. With the force flag set, [hasUpdate] returns
    true exactly when the diff has an entry it looks at: a top-level object
    or field entry, or a field or object entry of a task group or task.
    The flag is read only inside the branch of the top-level fields. *)
Theorem hasUpdate_force r restart :
  hasUpdate r restart true = true ↔
  JobDiff.Objects (JobPlanResponse.Diff r) ≠ [] ∨
  JobDiff.Fields (JobPlanResponse.Diff r) ≠ [] ∨
  subgroupDiff (JobPlanResponse.Diff r).
Proof.
  split.
  - unfold hasUpdate. intros H.
    destruct (nonempty (JobDiff.Objects _)) eqn:Ho.
    { left. by apply nonempty_true. }
    destruct (nonempty (JobDiff.Fields _)) eqn:Hf.
    { right; left. by apply nonempty_true. }
    simpl in H.
    destruct (taskGroupsChanged _) eqn:Hg; [| discriminate].
    right; right. by apply taskGroupsChanged_true.
  - intros [H | [H | H]].
    + by apply hasUpdate_objects.
    + apply hasUpdate_fields_flag; [done |]. by destruct restart.
    + by apply hasUpdate_subgroup.
Qed.

(** C3, as stated, fails on the empty diff: the force flag does not make
    it count. *)
Lemma hasUpdate_force_empty_plan :
  hasUpdate sample.emptyPlan false true = false ∧
  hasUpdate sample.emptyPlan true true = false.
Proof. split; reflexivity. Qed.

(** C4. Override completeness: when the whole diff is the one top-level
    field of the source revision or of the restart nonce, a restart or
    the force flag makes [hasUpdate] return true. *)
Theorem hasUpdate_noise_overridden r restart force name :
  name = revisionField ∨ name = restartNonceField →
  onlyChange (JobPlanResponse.Diff r) name →
  restart = true ∨ force = true →
  hasUpdate r restart force = true.
Proof.
  intros _ (_ & (f & Hfields & _) & _) Hflag.
  apply hasUpdate_fields_flag.
  - by rewrite Hfields.
  - destruct Hflag as [-> | ->]; [done | apply orb_true_r].
Qed.

Lemma hasUpdate_noise_overridden_witness :
  hasUpdate (sample.plan [sample.restartChange] [sample.quietGroup]) true false = true
  ∧ hasUpdate (sample.plan [sample.revisionChange] []) false true = true.
Proof.
  split.
  - apply (hasUpdate_noise_overridden
             (sample.plan [sample.restartChange] [sample.quietGroup])
             true false restartNonceField).
    + right; reflexivity.
    + split; [reflexivity |]. split.
      * exists sample.restartChange. split; reflexivity.
      * repeat constructor.
    + left; reflexivity.
  - apply (hasUpdate_noise_overridden
             (sample.plan [sample.revisionChange] []) false true revisionField).
    + left; reflexivity.
    + split; [reflexivity |]. split.
      * exists sample.revisionChange. split; reflexivity.
      * constructor.
    + right; reflexivity.
Defined.

(** C5. Multi-field veto: with two or more top-level field entries,
    [hasUpdate] returns true whatever the flags. *)
Theorem hasUpdate_multi_field r restart force :
  2 ≤ length (JobDiff.Fields (JobPlanResponse.Diff r)) →
  hasUpdate r restart force = true.
Proof.
  intros Hlen. unfold hasUpdate.
  destruct (nonempty (JobDiff.Objects _)); [done |].
  destruct (JobDiff.Fields _) as [|f0 [|f1 fs]]; simpl in Hlen; [lia | lia |].
  reflexivity.
Qed.

Lemma hasUpdate_multi_field_witness :
  hasUpdate (sample.plan [sample.revisionChange; sample.restartChange] [])
    false false = true.
Proof.
  apply (hasUpdate_multi_field
           (sample.plan [sample.revisionChange; sample.restartChange] [])
           false false).
  simpl. lia.
Defined.

(** C10. The branch of the top-level fields does not end the evaluation:
    when the only top-level field is the source revision or the restart
    nonce and no flag is set, a field or object entry of a task group or
    of a task still makes [hasUpdate] return true. *)
Theorem hasUpdate_noise_with_subgroup r name :
  name = revisionField ∨ name = restartNonceField →
  onlyTopLevelField (JobPlanResponse.Diff r) name →
  subgroupDiff (JobPlanResponse.Diff r) →
  hasUpdate r false false = true.
Proof.
  intros Hname (f & Hfields & Hf) Hsub.
  apply taskGroupsChanged_true in Hsub.
  unfold hasUpdate.
  destruct (nonempty (JobDiff.Objects _)); [done |].
  rewrite Hfields. cbn [nonempty fieldDiffCounts length andb].
  (* the branch of the fields returns nothing here, and the loop decides *)
  assert (Hquiet : negb (1 =? 1) ||
                   negb (String.eqb (FieldDiff.Name f) (metaFieldName metaKeySrcCommit))
                   && negb (String.eqb (FieldDiff.Name f)
                              (metaFieldName metaKeyForceRestart))
                   || false || false = false).
  { rewrite Hf. by destruct Hname as [-> | ->]. }
  by rewrite Hquiet, Hsub.
Qed.

Lemma hasUpdate_noise_with_subgroup_witness :
  hasUpdate (sample.plan [sample.revisionChange] [sample.quietGroup; sample.editedGroup])
    false false = true.
Proof.
  apply (hasUpdate_noise_with_subgroup
           (sample.plan [sample.revisionChange] [sample.quietGroup; sample.editedGroup])
           revisionField).
  - left; reflexivity.
  - exists sample.revisionChange. split; reflexivity.
  - exists sample.editedGroup. split.
    + right; left.
    + right; right. eexists. split; [left |]. left. discriminate.
Defined.

End classifier.

(** ** The cluster state reader *)

Section reader.

Context (c : Scheduler.t) (src : Source.t).

Lemma entries_record call w m : entries (record call w) m = entries w m.
Proof. reflexivity. Qed.

Lemma nonempty_size (m : gmap string string) : (size m =? 0) = false → m ≠ ∅.
Proof.
  intros Hsize%Nat.eqb_neq Hm. apply Hsize. by apply map_size_empty_iff.
Qed.

(** The loop never touches a map object, and every job it adds to
    [CurrentJobs] is the answer of [Info] for a name of the listing, with
    metadata that passed the two tests. *)
Lemma collectJobs_sound joblist currentJobs w state w' :
  collectJobs c src joblist currentJobs w = (Ok state, w') →
  ∀ name ji, ClusterState.CurrentJobs state !! name = Some ji →
    currentJobs !! name = Some ji ∨
    ∃ stub j, stub ∈ joblist ∧ JobListStub.Name stub = name ∧
      Scheduler.JobsInfo c name (getQueryOptsCtx src) = inr j ∧
      ji = jobInfoOf j ∧ claimedBy src (entries w (Job.Meta j)).
Proof.
  revert currentJobs w.
  induction joblist as [|job rest IH]; intros currentJobs w Hrun name ji Hin.
  - simpl in Hrun. injection Hrun as <- <-. by left.
  - simpl in Hrun.
    destruct (Scheduler.JobsInfo c (JobListStub.Name job) (getQueryOptsCtx src))
      as [err | j] eqn:Hinfo; [discriminate |].
    rewrite entries_record in Hrun.
    assert (Hrest : ∀ cur,
      collectJobs c src rest cur
        (record (JobsInfo (JobListStub.Name job) (getQueryOptsCtx src)) w)
        = (Ok state, w') →
      cur !! name = Some ji ∨
      ∃ stub j, stub ∈ job :: rest ∧ JobListStub.Name stub = name ∧
        Scheduler.JobsInfo c name (getQueryOptsCtx src) = inr j ∧
        ji = jobInfoOf j ∧ claimedBy src (entries w (Job.Meta j))).
    { intros cur Hcur.
      destruct (IH _ _ Hcur name ji Hin) as [? | (stub & j' & ? & ? & ? & ? & ?)];
        [by left | right].
      exists stub, j'. split; [by right | done]. }
    destruct (size (entries w (Job.Meta j)) =? 0) eqn:Hsize; [by apply Hrest |].
    destruct (String.eqb (index (entries w (Job.Meta j)) metaKeySrcID) (Source.ID src))
      eqn:Hid; simpl in Hrun; [| by apply Hrest].
    destruct (Hrest _ Hrun) as [Hcur | ?]; [| by right].
    destruct (decide (JobListStub.Name job = name)) as [<- | Hne].
    + rewrite lookup_insert_eq in Hcur. injection Hcur as <-.
      right. exists job, j. repeat split; try done.
      * left.
      * by apply nonempty_size.
      * by apply String.eqb_eq.
    + rewrite lookup_insert_ne in Hcur by done. by left.
Qed.

(** Conversely, a job of the listing whose metadata passes the two tests
    is in the state that comes back. *)
Lemma collectJobs_complete joblist currentJobs w state w' name j :
  collectJobs c src joblist currentJobs w = (Ok state, w') →
  Scheduler.JobsInfo c name (getQueryOptsCtx src) = inr j →
  claimedBy src (entries w (Job.Meta j)) →
  (∃ stub, stub ∈ joblist ∧ JobListStub.Name stub = name)
  ∨ currentJobs !! name = Some (jobInfoOf j) →
  ClusterState.CurrentJobs state !! name = Some (jobInfoOf j).
Proof.
  intros Hrun Hinfo [Hsize Hid]. revert currentJobs w Hrun Hsize Hid.
  induction joblist as [|job rest IH]; intros currentJobs w Hrun Hsize Hid Hwhere.
  - simpl in Hrun. injection Hrun as <- <-.
    destruct Hwhere as [(stub & Hin & _) | Hcur]; [inversion Hin | done].
  - simpl in Hrun.
    destruct (Scheduler.JobsInfo c (JobListStub.Name job) (getQueryOptsCtx src))
      as [err | j0] eqn:Hinfo0; [discriminate |].
    rewrite entries_record in Hrun.
    destruct (decide (JobListStub.Name job = name)) as [Hname | Hname].
    + rewrite Hname, Hinfo in Hinfo0. injection Hinfo0 as <-.
      assert (Hnonempty : (size (entries w (Job.Meta j)) =? 0) = false).
      { apply Nat.eqb_neq. by rewrite map_size_empty_iff. }
      apply String.eqb_eq in Hid. rewrite Hnonempty, Hid in Hrun. simpl in Hrun.
      apply (IH _ _ Hrun); [done | by apply String.eqb_eq |].
      right. by rewrite Hname, lookup_insert_eq.
    + assert (Hrest : ∀ cur : gmap string JobInfo.t,
        cur !! name = currentJobs !! name →
        (∃ stub, stub ∈ rest ∧ JobListStub.Name stub = name)
        ∨ cur !! name = Some (jobInfoOf j)).
      { intros cur Hcur.
        destruct Hwhere as [(stub & Hin & Hstub) | Hin]; [| right; congruence].
        apply elem_of_cons in Hin as [-> | Hin]; [done |]. left. by exists stub. }
      destruct (size (entries w (Job.Meta j0)) =? 0);
        [by apply (IH _ _ Hrun), Hrest |].
      destruct (String.eqb _ _); simpl in Hrun;
        [| by apply (IH _ _ Hrun), Hrest].
      apply (IH _ _ Hrun); [done | done |]. apply Hrest.
      by rewrite lookup_insert_ne.
Qed.

End reader.

(** The tests of the reader are weaker than ownership: what a source owns
    passes them. *)
Lemma owned_claimedBy src (m : gmap string string) :
  owned src m → claimedBy src m.
Proof.
  intros [Hmarker Hid]. split.
  - intros ->. by rewrite lookup_empty in Hmarker.
  - unfold index. by rewrite Hid.
Qed.

(** C1, as the code has it. Every workload of the state that
    [GetCurrentClusterState] returns has metadata that is not empty and
    whose source identifier, read as the empty string when it is missing,
    is the identifier of the source.  The ownership marker is not read. *)
Theorem GetCurrentClusterState_claimed c opts w state w' :
  GetCurrentClusterState c opts w = (Ok state, w') →
  ∀ name ji, ClusterState.CurrentJobs state !! name = Some ji →
    claimedBy (GetCurrentClusterStateOptions.Source opts)
      (entries w (Job.Meta (JobInfo.Job ji))).
Proof.
  unfold GetCurrentClusterState. intros Hrun name ji Hin.
  destruct (Scheduler.JobsList c _) as [err | joblist]; [discriminate |].
  destruct (collectJobs_sound _ _ _ _ _ _ _ Hrun name ji Hin)
    as [Hempty | (stub & j & _ & _ & _ & -> & Hclaimed)].
  - by rewrite lookup_empty in Hempty.
  - exact Hclaimed.
Qed.

Lemma GetCurrentClusterState_claimed_witness :
  claimedBy (sample.source false false false)
    (entries sample.world (Job.Meta (sample.job "web" (Some 2%positive)))).
Proof.
  pose (opts := {| GetCurrentClusterStateOptions.Source :=
                     sample.source false false false |}).
  pose (run := GetCurrentClusterState
                 (sample.scheduler sample.emptyPlan (None, None)) opts sample.world).
  apply (GetCurrentClusterState_claimed
           (sample.scheduler sample.emptyPlan (None, None)) opts sample.world
           (match run.1 with
            | Ok state => state
            | _ => {| ClusterState.CurrentJobs := ∅ |}
            end) run.2)
    with (name := "web") (ji := jobInfoOf (sample.job "web" (Some 2%positive)));
    vm_compute; reflexivity.
Defined.

(** C1, as stated, fails: the job [stray] carries the identifier of the
    source and no ownership marker, so the source does not own it, and the
    reader returns it. *)
Lemma GetCurrentClusterState_returns_unmarked :
  ∃ state w',
    GetCurrentClusterState (sample.scheduler sample.emptyPlan (None, None))
      {| GetCurrentClusterStateOptions.Source := sample.source false false false |}
      sample.world = (Ok state, w') ∧
    ClusterState.CurrentJobs state !! "stray"
      = Some (jobInfoOf (sample.job "stray" (Some 3%positive))) ∧
    entries sample.world (Some 3%positive) !! metaKeySrcID
      = Some (Source.ID (sample.source false false false)) ∧
    entries sample.world (Some 3%positive) !! metaKeyOps = None ∧
    ¬ owned (sample.source false false false)
        (entries sample.world (Some 3%positive)).
Proof.
  eexists _, _. split; [vm_compute; reflexivity |].
  split_and!; try (vm_compute; reflexivity).
  intros [Hmarker _]. vm_compute in Hmarker. discriminate.
Qed.

(** ** Searching the text of an error *)

Section text.

Implicit Types (s t e needle : string).

Lemma append_nil s : EmptyString +:+ s = s.
Proof. reflexivity. Qed.

Lemma append_cons a s t : String a s +:+ t = String a (s +:+ t).
Proof. reflexivity. Qed.

Lemma ToLower_append s t :
  strings.ToLower (s +:+ t) = strings.ToLower s +:+ strings.ToLower t.
Proof.
  induction s as [|a s IH]; [done |].
  rewrite append_cons. simpl. by rewrite append_cons, IH.
Qed.

(** A lowered text splits where its source splits. *)
Lemma ToLower_split e s t :
  strings.ToLower e = s +:+ t →
  ∃ e1 e2, e = e1 +:+ e2 ∧ strings.ToLower e1 = s ∧ strings.ToLower e2 = t.
Proof.
  revert e. induction s as [|a s IH]; intros e Hlow.
  - by exists EmptyString, e.
  - destruct e as [|b e]; [discriminate |].
    rewrite append_cons in Hlow. simpl in Hlow. injection Hlow as Ha Hrest.
    destruct (IH _ Hrest) as (e1 & e2 & -> & <- & <-).
    exists (String b e1), e2. rewrite append_cons. simpl. by rewrite Ha.
Qed.

Lemma HasPrefix_true s prefix :
  strings.HasPrefix s prefix = true ↔ ∃ rest, s = prefix +:+ rest.
Proof.
  revert s. induction prefix as [|p prefix IH]; intros s.
  - split; [intros _; by exists s | by destruct s].
  - destruct s as [|a s]; simpl.
    + split; [discriminate | intros [rest ?]; discriminate].
    + setoid_rewrite append_cons.
      destruct (Ascii.eqb p a) eqn:Hpa.
      * apply Ascii.eqb_eq in Hpa as ->. rewrite IH.
        split; intros [rest Hrest]; exists rest; congruence.
      * apply Ascii.eqb_neq in Hpa.
        split; [discriminate | intros [rest ?]; congruence].
Qed.

(** [strings.Contains] finds [substr] exactly when it lies between some
    beginning and some end of [s]. *)
Lemma Contains_true s substr :
  strings.Contains s substr = true ↔
  ∃ before after, s = before +:+ substr +:+ after.
Proof.
  induction s as [|a s IH]; cbn [strings.Contains].
  - rewrite orb_false_r, HasPrefix_true. split.
    + intros [rest Hrest]. by exists EmptyString, rest.
    + intros ([|b before] & after & Heq); [by exists after | discriminate].
  - rewrite orb_true_iff, HasPrefix_true, IH. split.
    + intros [[rest Hrest] | (before & after & ->)].
      * by exists EmptyString, rest.
      * by exists (String a before), after.
    + intros ([|b before] & after & Heq).
      * left. by exists after.
      * right. rewrite append_cons in Heq. injection Heq as _ ->.
        by exists before, after.
Qed.

(** The test of [UpdateJob] on the error text, in the words of the design
    document: lowering the text and searching it for a lower-case needle
    finds the needle in whatever case it is written. *)
Lemma Contains_ToLower_mentions e needle :
  strings.ToLower needle = needle →
  strings.Contains (strings.ToLower e) needle = true ↔ mentions e needle.
Proof.
  intros Hlower. rewrite Contains_true. unfold mentions, sameIgnoringCase.
  rewrite Hlower. split.
  - intros (s & t & Hsplit).
    apply ToLower_split in Hsplit as (before & rest & -> & _ & Hrest).
    apply ToLower_split in Hrest as (found & after & -> & Hfound & _).
    by exists before, found, after.
  - intros (before & found & after & -> & Hfound).
    exists (strings.ToLower before), (strings.ToLower after).
    by rewrite !ToLower_append, Hfound.
Qed.

Lemma fatalStatusError_not_found e :
  mentions e "not found" → fatalStatusError (Some e) = None.
Proof.
  intros H%Contains_ToLower_mentions; [| reflexivity].
  unfold fatalStatusError. by rewrite H.
Qed.

Lemma fatalStatusError_other e :
  ¬ mentions e "not found" → fatalStatusError (Some e) = Some e.
Proof.
  intros H. unfold fatalStatusError.
  destruct (strings.Contains _ _) eqn:Hfound; [| done].
  apply Contains_ToLower_mentions in Hfound; [done | reflexivity].
Qed.

End text.

(** ** The apply protocol *)

Section apply.

Context (c : Scheduler.t) (now : string) (src : Source.t).

Implicit Types (job : JobInfo.t) (restart : bool) (w : World).

Lemma issued_app w w' l : calls w' = calls w ++ l → issued w w' = l.
Proof. intros Heq. unfold issued. rewrite Heq. apply drop_app_length. Qed.

Lemma entries_assign l key value w :
  entries (assign l key value w) (Some l) = <[key := value]> (entries w (Some l)).
Proof. unfold assign. simpl. by rewrite lookup_insert_eq. Qed.

Lemma maps_assign_ne l l' key value w :
  l ≠ l' → maps (assign l key value w) !! l' = maps w !! l'.
Proof. intros Hne. unfold assign. simpl. by rewrite lookup_insert_ne. Qed.

Lemma makeMap_fresh w : maps w !! (makeMap w).1 = None.
Proof. simpl. apply not_elem_of_dom, is_fresh. Qed.

(** The metadata the tagging step works on: the map of the job, or a new
    empty map object when the job has none. *)
Lemma claimJob_metadata job w :
  ∃ l w1,
    match Job.Meta (JobInfo.Job job) with
    | None => makeMap w
    | Some l => (l, w)
    end = (l, w1) ∧
    entries w1 (Some l) = entries w (Job.Meta (JobInfo.Job job)) ∧
    (∀ l', l ≠ l' → maps w1 !! l' = maps w !! l') ∧
    calls w1 = calls w ∧
    (Job.Meta (JobInfo.Job job) = Some l ∨
     Job.Meta (JobInfo.Job job) = None ∧ maps w !! l = None).
Proof.
  destruct (Job.Meta (JobInfo.Job job)) as [l |] eqn:Hmeta.
  - exists l, w. repeat split; auto.
  - exists (makeMap w).1, (makeMap w).2. split; [done |]. split.
    { simpl. by rewrite lookup_insert_eq. }
    split.
    { intros l' Hne. simpl. by rewrite lookup_insert_ne. }
    split; [done |]. right. split; [done |]. apply makeMap_fresh.
Qed.

(** The writes of the tagging step, one after the other, amount to the
    tags of the design document laid over the metadata. *)
Lemma tags_written job restart (m : gmap string string) :
  (if restart then <[metaKeyForceRestart := now]> else id)
    (<[metaKeySrcCommit := GitInfo.GitCommit (JobInfo.GitInfo job)]>
       (<[metaKeySrcID := Source.ID src]>
          (<[metaKeySrcUrl := Source.URL src]>
             (<[metaKeyOps := "true"]> m))))
  = taggedMetadata now src job restart m.
Proof.
  unfold taggedMetadata, ownershipTags. apply map_eq. intros key.
  destruct restart; simpl;
    rewrite !lookup_union, ?lookup_insert, ?lookup_empty, ?lookup_singleton;
    repeat case_decide; simplify_eq; try done;
    match goal with |- context [m !! ?k] => by destruct (m !! k) end.
Qed.

(** C9, as the code has it. The tagging step writes into the metadata map
    of the job itself, or into a new map when the job has none, and leaves
    the job referring to that map.  Afterwards the map holds the ownership
    marker, the source identifier, the origin URL and the revision of the
    job, the restart nonce set to the current time when a restart is
    requested, and every other entry as it was (an earlier restart nonce
    included, when no restart is requested).  No other map object changes,
    no call is made, and the other fields of the job stay. *)
Theorem claimJob_tags job restart w :
  let job' := (claimJob now src job restart w).1 in
  let w' := (claimJob now src job restart w).2 in
  entries w' (Job.Meta (JobInfo.Job job'))
    = taggedMetadata now src job restart (entries w (Job.Meta (JobInfo.Job job)))
  ∧ (∀ l, Job.Meta (JobInfo.Job job) = Some l →
          Job.Meta (JobInfo.Job job') = Some l)
  ∧ (Job.Meta (JobInfo.Job job) = None →
     ∃ l, Job.Meta (JobInfo.Job job') = Some l ∧ maps w !! l = None)
  ∧ (∀ l, Job.Meta (JobInfo.Job job') ≠ Some l → maps w' !! l = maps w !! l)
  ∧ calls w' = calls w
  ∧ job' = setMeta job (Job.Meta (JobInfo.Job job')).
Proof.
  unfold claimJob.
  destruct (claimJob_metadata job w)
    as (l & w1 & -> & Hentries & Hframe & Hcalls & Hwhere).
  cbv zeta. cbn [fst snd setMeta JobInfo.Job Job.Meta].
  split.
  { rewrite <- Hentries, <- tags_written.
    destruct restart; by rewrite !entries_assign. }
  split.
  { intros l' Hl'. destruct Hwhere as [Hl | [Hnil _]]; congruence. }
  split.
  { intros Hnil. destruct Hwhere as [Hl | [_ Hfresh]]; [congruence |].
    by exists l. }
  split.
  { intros l' Hne. assert (l ≠ l') by congruence.
    destruct restart; rewrite !maps_assign_ne by done; by apply Hframe. }
  split; [by destruct restart |]. reflexivity.
Qed.

(** What the tags read as: the marker, the identifier, the URL and the
    revision are set; the restart nonce is the current time under a
    restart and is left alone otherwise; any other key is left alone. *)
Lemma taggedMetadata_lookup job restart (m : gmap string string) :
  let m' := taggedMetadata now src job restart m in
  m' !! metaKeyOps = Some "true"
  ∧ m' !! metaKeySrcID = Some (Source.ID src)
  ∧ m' !! metaKeySrcUrl = Some (Source.URL src)
  ∧ m' !! metaKeySrcCommit = Some (GitInfo.GitCommit (JobInfo.GitInfo job))
  ∧ m' !! metaKeyForceRestart
      = (if restart then Some now else m !! metaKeyForceRestart)
  ∧ ∀ key, key ∉ [metaKeyOps; metaKeySrcID; metaKeySrcUrl; metaKeySrcCommit;
                  metaKeyForceRestart] →
           m' !! key = m !! key.
Proof.
  cbv zeta. rewrite <- tags_written.
  split_and!;
    try (destruct restart; cbn [id]; rewrite ?lookup_insert;
         repeat case_decide; done).
  intros key Hkey. rewrite !not_elem_of_cons in Hkey.
  destruct Hkey as (? & ? & ? & ? & ? & _).
  destruct restart; cbn [id]; by rewrite !lookup_insert_ne.
Qed.

(** C9, as stated, fails: the job [web] comes with its metadata map, and
    the tagging step writes the ownership marker into that very map. *)
Lemma claimJob_writes_the_map_of_the_job :
  entries sample.world (Job.Meta (JobInfo.Job sample.web)) !! metaKeyOps = None
  ∧ entries
      (claimJob "2023-01-02T03:04:05.000000006Z" (sample.source false false false)
         sample.web false sample.world).2
      (Job.Meta (JobInfo.Job sample.web)) !! metaKeyOps = Some "true".
Proof. split; vm_compute; reflexivity. Qed.

(** *** The calls of the protocol *)

Lemma claimJob_calls job restart w :
  calls (claimJob now src job restart w).2 = calls w.
Proof.
  unfold claimJob. destruct (Job.Meta (JobInfo.Job job)), restart; reflexivity.
Qed.

Lemma ensureNamespace_calls job w r w0 :
  ensureNamespace c src job w = (r, w0) →
  ∃ l, calls w0 = calls w ++ l ∧ Forall (λ call, isSubmission call = false) l.
Proof.
  unfold ensureNamespace. intros Hrun.
  destruct (Source.CreateNamespace src);
    [| injection Hrun as <- <-; exists []; by rewrite app_nil_r].
  destruct (Job.Namespace (JobInfo.Job job)) as [name |];
    [| injection Hrun as <- <-; exists []; by rewrite app_nil_r].
  destruct (Scheduler.NamespacesRegister c _ _);
    injection Hrun as <- <-; (eexists [_]; split; [reflexivity | by repeat constructor]).
Qed.

Lemma planJob_calls job restart w r job1 w1 :
  planJob c now src job restart w = (r, job1, w1) →
  ∃ l, calls w1 = calls w ++ l ∧ Forall (λ call, isSubmission call = false) l.
Proof.
  unfold planJob. intros Hrun.
  destruct (ensureNamespace c src job w) as [[err |] w0] eqn:Hns;
    apply ensureNamespace_calls in Hns as (l & Hl & Hquiet).
  { injection Hrun as <- <- <-. by exists l. }
  pose proof (claimJob_calls job restart w0) as Hclaim.
  destruct (claimJob now src job restart w0) as [job' w'].
  simpl in Hclaim.
  exists (l ++ [JobsPlan (JobInfo.Job job') (entries w' (Job.Meta (JobInfo.Job job')))
                  true (getWriteOptions src)]).
  split.
  - destruct (Scheduler.JobsPlan c _ _ _ _); injection Hrun as <- <- <-;
      simpl; by rewrite Hclaim, Hl, app_assoc.
  - apply Forall_app. split; [done | by repeat constructor].
Qed.

Lemma latestDeploymentStatus_calls job w r w2 :
  latestDeploymentStatus c src job w = (r, w2) →
  ∃ l, calls w2 = calls w ++ l ∧ Forall (λ call, isSubmission call = false) l.
Proof.
  unfold latestDeploymentStatus. intros Hrun.
  destruct (Job.ID (JobInfo.Job job)) as [id |];
    [| injection Hrun as <- <-; exists []; by rewrite app_nil_r].
  exists [JobsLatestDeployment id (getQueryOptsCtx src)].
  split; [| by repeat constructor].
  destruct (Scheduler.JobsLatestDeployment c id _) as [deployment err].
  destruct (fatalStatusError err); [by injection Hrun as <- <- |].
  destruct deployment; by injection Hrun as <- <-.
Qed.

(** Under [Paused] the last part of [UpdateJob] makes no call: it reports
    what the classifier says, with the status it was given. *)
Lemma submitJob_paused job resp restart deploymentStatus w :
  Source.Paused src = true →
  submitJob c src job resp restart deploymentStatus w
  = (Ok (updateJobInfo (hasUpdate resp restart (Source.Force src)) deploymentStatus), w).
Proof.
  intros Hpaused. unfold submitJob. rewrite Hpaused.
  by destruct (hasUpdate resp restart (Source.Force src)).
Qed.

(** A paused source never has a job registered, however the call ends. *)
Lemma UpdateJob_paused_no_submission job restart w :
  Source.Paused src = true →
  Forall (λ call, isSubmission call = false)
    (issued w (UpdateJob c now src job restart w).2).
Proof.
  intros Hpaused. unfold UpdateJob.
  destruct (planJob c now src job restart w) as [[r job1] w1] eqn:Hplan.
  apply planJob_calls in Hplan as (l1 & Hl1 & Hq1).
  destruct r as [resp | err |]; simpl; try by rewrite (issued_app _ _ _ Hl1).
  destruct (latestDeploymentStatus c src job1 w1) as [r2 w2] eqn:Hstatus.
  apply latestDeploymentStatus_calls in Hstatus as (l2 & Hl2 & Hq2).
  assert (Hl : calls w2 = calls w ++ l1 ++ l2) by by rewrite Hl2, Hl1, app_assoc.
  assert (Hq : Forall (λ call, isSubmission call = false) (l1 ++ l2))
    by by apply Forall_app.
  destruct r2 as [status | err |]; simpl; try by rewrite (issued_app _ _ _ Hl).
  rewrite submitJob_paused by done. simpl. by rewrite (issued_app _ _ _ Hl).
Qed.

(** C6. Paused dry run: when the source is paused and the classifier
    finds that the planned diff requires an update, [UpdateJob] returns
    [Updated = true] with the deployment status it read before, and no
    call of the whole run registers a job. *)
Theorem UpdateJob_paused job restart w resp job1 w1 deploymentStatus w2 :
  Source.Paused src = true →
  planJob c now src job restart w = (Ok resp, job1, w1) →
  latestDeploymentStatus c src job1 w1 = (Ok deploymentStatus, w2) →
  hasUpdate resp restart (Source.Force src) = true →
  UpdateJob c now src job restart w
    = (Ok (updateJobInfo true deploymentStatus), job1, w2)
  ∧ Forall (λ call, isSubmission call = false) (issued w w2).
Proof.
  intros Hpaused Hplan Hstatus Hupdate.
  assert (Hrun : UpdateJob c now src job restart w
                 = (Ok (updateJobInfo true deploymentStatus), job1, w2)).
  { unfold UpdateJob. rewrite Hplan, Hstatus, submitJob_paused by done.
    by rewrite Hupdate. }
  split; [done |].
  pose proof (UpdateJob_paused_no_submission job restart w Hpaused) as Hquiet.
  by rewrite Hrun in Hquiet.
Qed.

(** *** The deployment status *)

(** C8. Not-found tolerance: when the status query fails, returning no
    deployment and an error, and the text of the error contains "not
    found" in any mix of cases, [UpdateJob] goes on with the empty status:
    it ends as its last part does on that status.  With any other error
    text, [UpdateJob] returns that error. *)
Theorem UpdateJob_status_error job restart w resp job1 w1 id err :
  planJob c now src job restart w = (Ok resp, job1, w1) →
  Job.ID (JobInfo.Job job1) = Some id →
  Scheduler.JobsLatestDeployment c id (getQueryOptsCtx src) = (None, Some err) →
  let w2 := record (JobsLatestDeployment id (getQueryOptsCtx src)) w1 in
  (mentions err "not found" →
     latestDeploymentStatus c src job1 w1 = (Ok "", w2) ∧
     UpdateJob c now src job restart w
       = ((submitJob c src job1 resp restart "" w2).1, job1,
          (submitJob c src job1 resp restart "" w2).2))
  ∧ (¬ mentions err "not found" →
     UpdateJob c now src job restart w = (Err err, job1, w2)).
Proof.
  intros Hplan Hid Hquery w2.
  assert (Hstatus : latestDeploymentStatus c src job1 w1
                    = match fatalStatusError (Some err) with
                      | Some e => (Err e, w2)
                      | None => (Ok "", w2)
                      end).
  { unfold latestDeploymentStatus. by rewrite Hid, Hquery. }
  split.
  - intros Hfound%fatalStatusError_not_found. rewrite Hfound in Hstatus.
    split; [done |].
    unfold UpdateJob. rewrite Hplan, Hstatus.
    by destruct (submitJob c src job1 resp restart "" w2).
  - intros Hother%fatalStatusError_other. rewrite Hother in Hstatus.
    unfold UpdateJob. by rewrite Hplan, Hstatus.
Qed.

(** Whatever the last part of [UpdateJob] reports carries the status it
    was given. *)
Lemma submitJob_status job resp restart deploymentStatus w info w' :
  submitJob c src job resp restart deploymentStatus w = (Ok info, w') →
  DeploymentStatus.Status (UpdateJobInfo.DeploymentStatus info) = deploymentStatus.
Proof.
  unfold submitJob. intros Hrun.
  destruct (hasUpdate resp restart (Source.Force src)), (Source.Paused src);
    simpl in Hrun; try by injection Hrun as <- _.
  destruct (Scheduler.JobsRegister c _ _ _); [discriminate |].
  by injection Hrun as <- _.
Qed.

(** When the classifier finds nothing to update, [UpdateJob] reports
    [Updated = false] with the status it read, and registers no job. *)
Lemma UpdateJob_up_to_date job restart w resp job1 w1 deploymentStatus w2 :
  planJob c now src job restart w = (Ok resp, job1, w1) →
  latestDeploymentStatus c src job1 w1 = (Ok deploymentStatus, w2) →
  hasUpdate resp restart (Source.Force src) = false →
  UpdateJob c now src job restart w
    = (Ok (updateJobInfo false deploymentStatus), job1, w2)
  ∧ Forall (λ call, isSubmission call = false) (issued w w2).
Proof.
  intros Hplan Hstatus Hsame. split.
  - unfold UpdateJob, submitJob. by rewrite Hplan, Hstatus, Hsame.
  - apply planJob_calls in Hplan as (l1 & Hl1 & Hq1).
    apply latestDeploymentStatus_calls in Hstatus as (l2 & Hl2 & Hq2).
    rewrite (issued_app w w2 (l1 ++ l2)); [by apply Forall_app |].
    by rewrite Hl2, Hl1, app_assoc.
Qed.

End apply.

(** A paused source with a changed task: the diff is planned, the status
    is read, nothing is registered, and the outcome says updated. *)
Lemma UpdateJob_paused_witness :
  let c := sample.scheduler (sample.plan [] [sample.editedGroup])
             (Some sample.running, None) in
  let run := UpdateJob c "2023-01-02T03:04:05.000000006Z"
               (sample.source true true false) sample.web false sample.world in
  run.1.1 = Ok (updateJobInfo true "running")
  ∧ Forall (λ call, isSubmission call = false) (issued sample.world run.2).
Proof.
  intros c run.
  pose (src := sample.source true true false).
  pose (planned := planJob c "2023-01-02T03:04:05.000000006Z" src sample.web false
                     sample.world).
  pose (status := latestDeploymentStatus c src planned.1.2 planned.2).
  assert (Hpaused : Source.Paused src = true) by reflexivity.
  assert (Hplan : planJob c "2023-01-02T03:04:05.000000006Z" src sample.web false
                    sample.world
                  = (Ok (sample.plan [] [sample.editedGroup]), planned.1.2, planned.2))
    by (vm_compute; reflexivity).
  assert (Hstatus : latestDeploymentStatus c src planned.1.2 planned.2
                    = (Ok "running", status.2))
    by (vm_compute; reflexivity).
  assert (Hupdate : hasUpdate (sample.plan [] [sample.editedGroup]) false
                      (Source.Force src) = true) by reflexivity.
  destruct (UpdateJob_paused c "2023-01-02T03:04:05.000000006Z" src sample.web false
              sample.world _ _ _ _ _ Hpaused Hplan Hstatus Hupdate)
    as [Hrun Hquiet].
  subst run. fold src. rewrite Hrun. split; [reflexivity | exact Hquiet].
Defined.

(** The status query answers that the deployment is not found; the job
    is registered all the same, with the empty status.  Another error
    ends the call. *)
Lemma UpdateJob_status_error_witness :
  (UpdateJob (sample.scheduler (sample.plan [sample.countChange] [])
                (None, Some "Unexpected response code: 404 (Deployment Not Found)"))
     "2023-01-02T03:04:05.000000006Z" (sample.source false false false)
     sample.web false sample.world).1.1
  = Ok (updateJobInfo true "")
  ∧ (UpdateJob (sample.scheduler (sample.plan [sample.countChange] [])
                  (None, Some "Unexpected response code: 500 (no cluster leader)"))
       "2023-01-02T03:04:05.000000006Z" (sample.source false false false)
       sample.web false sample.world).1.1
  = Err "Unexpected response code: 500 (no cluster leader)".
Proof.
  set (src := sample.source false false false).
  set (resp := sample.plan [sample.countChange] []).
  split.
  - set (err := "Unexpected response code: 404 (Deployment Not Found)").
    set (c := sample.scheduler resp (None, Some err)).
    pose (planned := planJob c "2023-01-02T03:04:05.000000006Z" src sample.web false
                       sample.world).
    assert (Hplan : planJob c "2023-01-02T03:04:05.000000006Z" src sample.web false
                      sample.world = (Ok resp, planned.1.2, planned.2))
      by (vm_compute; reflexivity).
    assert (Hid : Job.ID (JobInfo.Job planned.1.2) = Some "web")
      by (vm_compute; reflexivity).
    assert (Hquery : Scheduler.JobsLatestDeployment c "web" (getQueryOptsCtx src)
                     = (None, Some err)) by reflexivity.
    assert (Hfound : mentions err "not found").
    { exists "Unexpected response code: 404 (Deployment ", "Not Found", ")".
      split; reflexivity. }
    destruct (UpdateJob_status_error c "2023-01-02T03:04:05.000000006Z" src
                sample.web false sample.world _ _ _ _ _ Hplan Hid Hquery)
      as [Hrun _].
    destruct (Hrun Hfound) as [_ ->]. vm_compute. reflexivity.
  - set (err := "Unexpected response code: 500 (no cluster leader)").
    set (c := sample.scheduler resp (None, Some err)).
    pose (planned := planJob c "2023-01-02T03:04:05.000000006Z" src sample.web false
                       sample.world).
    assert (Hplan : planJob c "2023-01-02T03:04:05.000000006Z" src sample.web false
                      sample.world = (Ok resp, planned.1.2, planned.2))
      by (vm_compute; reflexivity).
    assert (Hid : Job.ID (JobInfo.Job planned.1.2) = Some "web")
      by (vm_compute; reflexivity).
    assert (Hquery : Scheduler.JobsLatestDeployment c "web" (getQueryOptsCtx src)
                     = (None, Some err)) by reflexivity.
    assert (Hother : ¬ mentions err "not found").
    { intros Hfound%Contains_ToLower_mentions; [| reflexivity].
      vm_compute in Hfound. discriminate. }
    destruct (UpdateJob_status_error c "2023-01-02T03:04:05.000000006Z" src
                sample.web false sample.world _ _ _ _ _ Hplan Hid Hquery)
      as [_ Hrun].
    rewrite (Hrun Hother). reflexivity.
Defined.

(** ** The event handler *)

Section events.

Implicit Types (e : Event.t) (rest : list Event.t) (batches : list Events.t).

(** A registration or deregistration event that does not decode ends
    the run of the handler: no event after it in the batch is looked at. *)
Lemma eventHandler_job_decode_error e rest err :
  Event.Type_ e = "JobRegistered" ∨ Event.Type_ e = "JobDeregistered" →
  Event.Job e = inl err →
  eventHandler (e :: rest) = ([], Returned).
Proof.
  intros Htype Hjob. cbn [eventHandler]. rewrite Hjob.
  by destruct Htype as [-> | ->].
Qed.

(** The same for a deployment status update. *)
Lemma eventHandler_deployment_decode_error e rest err :
  Event.Type_ e = "DeploymentStatusUpdate" →
  Event.Deployment e = inl err →
  eventHandler (e :: rest) = ([], Returned).
Proof. intros Htype Hdep. cbn [eventHandler]. by rewrite Htype, Hdep. Qed.

(** An event of another kind is passed over, and the handler goes on. *)
Lemma eventHandler_other_kind e rest :
  Event.Type_ e ≠ "JobRegistered" → Event.Type_ e ≠ "JobDeregistered" →
  Event.Type_ e ≠ "DeploymentStatusUpdate" →
  eventHandler (e :: rest) = eventHandler rest.
Proof.
  intros H1%String.eqb_neq H2%String.eqb_neq H3%String.eqb_neq.
  cbn [eventHandler]. by rewrite H1, H2, H3.
Qed.

(** After a [return] of the handler the loop takes the next batch. *)
Lemma subscriptionLoop_after_return events batches names :
  Events.IsHeartbeat events = false →
  eventHandler (Events.Events events) = (names, Returned) →
  subscriptionLoop (events :: batches)
  = (names ++ (subscriptionLoop batches).1, (subscriptionLoop batches).2).
Proof.
  intros Hbeat Hrun. cbn [subscriptionLoop]. rewrite Hbeat, Hrun.
  by destruct (subscriptionLoop batches).
Qed.

(** A heartbeat is passed over. *)
Lemma subscriptionLoop_heartbeat events batches :
  Events.IsHeartbeat events = true →
  subscriptionLoop (events :: batches) = subscriptionLoop batches.
Proof. intros Hbeat. cbn [subscriptionLoop]. by rewrite Hbeat. Qed.

(** C7 on the code. A batch holds a registration event that does not
    decode and, after it, the registration of [web]: the callback is not
    called for [web].  The loop goes on, and the registration of [api] in
    the next batch reaches the callback. *)
Theorem eventHandler_decode_error_drops_later_events :
  eventHandler [sample.malformed; sample.registered "web"] = ([], Returned)
  ∧ eventHandler [sample.registered "web"] = (["web"], Finished)
  ∧ subscriptionLoop
      [sample.batch [sample.malformed; sample.registered "web"];
       sample.batch [sample.registered "api"]]
    = (["api"], true).
Proof. split_and!; reflexivity. Qed.

End events.

(** * Part III: further properties of the client *)

(** ** The change classifier, in full *)

Section classifier_policy.

Implicit Types (r : JobPlanResponse.t) (restart force : bool).

(** The whole decision of [hasUpdate]: it returns true exactly when there
    is a top-level object entry, or there are top-level field entries that
    are more than one, or not one of the two bookkeeping fields, or come
    with a flag, or a task group or task has an entry. *)
Theorem hasUpdate_decision r restart force :
  hasUpdate r restart force = true ↔
  JobDiff.Objects (JobPlanResponse.Diff r) ≠ []
  ∨ (∃ f fs, JobDiff.Fields (JobPlanResponse.Diff r) = f :: fs ∧
       (fs ≠ [] ∨
        (FieldDiff.Name f ≠ revisionField ∧ FieldDiff.Name f ≠ restartNonceField) ∨
        restart = true ∨ force = true))
  ∨ subgroupDiff (JobPlanResponse.Diff r).
Proof.
  unfold hasUpdate.
  destruct (nonempty (JobDiff.Objects _)) eqn:Hobj.
  { split; [intros _ | done]. left. by apply nonempty_true. }
  apply nonempty_false in Hobj.
  destruct (JobDiff.Fields (JobPlanResponse.Diff r)) as [|f fs] eqn:Hfields.
  { cbn [nonempty andb].
    destruct (taskGroupsChanged _) eqn:Hgrp.
    - split; [intros _ | done]. right; right. by apply taskGroupsChanged_true.
    - split; [discriminate |].
      intros [? | [(f & fs & ? & _) | Hsub]]; [done | discriminate |].
      apply taskGroupsChanged_true in Hsub. congruence. }
  cbn [nonempty andb fieldDiffCounts].
  rewrite metaFieldName_commit, metaFieldName_restart.
  destruct (negb (length (f :: fs) =? 1) ||
            negb (String.eqb (FieldDiff.Name f) revisionField)
            && negb (String.eqb (FieldDiff.Name f) restartNonceField)
            || force || restart) eqn:Hcount.
  - split; [intros _ | done]. right; left. exists f, fs. split; [done |].
    rewrite !orb_true_iff, andb_true_iff, !negb_true_iff in Hcount.
    destruct Hcount as [[[Hlen | [H1 H2]] | ->] | ->]; auto.
    + left. destruct fs; [discriminate | done].
    + right; left. split; by apply String.eqb_neq.
  - rewrite !orb_false_iff, andb_false_iff, !negb_false_iff in Hcount.
    destruct Hcount as [[[Hlen Hname] ->] ->].
    destruct (taskGroupsChanged _) eqn:Hgrp.
    + split; [intros _ | done]. right; right. by apply taskGroupsChanged_true.
    + split; [discriminate |].
      intros [? | [(f' & fs' & [= <- <-] & Hwhy) | Hsub]]; [done | |].
      * destruct Hwhy as [Hfs | [[H1 H2] | [? | ?]]]; try discriminate.
        -- destruct fs; [done | discriminate].
        -- destruct Hname as [Hname | Hname]; apply String.eqb_eq in Hname; done.
      * apply taskGroupsChanged_true in Hsub. congruence.
Qed.

(** The two flags weigh the same: [hasUpdate] depends on them only
    through [restart || force]. *)
Theorem hasUpdate_flags_interchangeable r restart force :
  hasUpdate r restart force = hasUpdate r force restart
  ∧ hasUpdate r restart force = hasUpdate r (restart || force) false.
Proof.
  unfold hasUpdate, fieldDiffCounts.
  destruct (nonempty (JobDiff.Objects _)); [done |].
  destruct (JobDiff.Fields _) as [|f fs]; [done |].
  cbn [nonempty andb].
  destruct (negb (length (f :: fs) =? 1) || _); by destruct restart, force.
Qed.

(** A flag never turns an update into no update. *)
Theorem hasUpdate_flags_monotone r restart force :
  hasUpdate r false false = true → hasUpdate r restart force = true.
Proof.
  unfold hasUpdate, fieldDiffCounts.
  destruct (nonempty (JobDiff.Objects _)); [done |].
  destruct (JobDiff.Fields _) as [|f fs]; [done |].
  cbn [nonempty andb].
  destruct (negb (length (f :: fs) =? 1) || _); simpl; [done |].
  destruct (taskGroupsChanged _); [| discriminate].
  intros _. by destruct force, restart.
Qed.

Lemma hasUpdate_flags_monotone_witness :
  hasUpdate (sample.plan [sample.countChange] []) true false = true.
Proof.
  apply (hasUpdate_flags_monotone (sample.plan [sample.countChange] []) true false).
  reflexivity.
Defined.

(** Without a top-level field entry the flags are not read at all. *)
Theorem hasUpdate_flags_need_fields r restart force :
  JobDiff.Fields (JobPlanResponse.Diff r) = [] →
  hasUpdate r restart force = hasUpdate r false false.
Proof. intros Hfields. unfold hasUpdate. by rewrite Hfields. Qed.

Lemma hasUpdate_flags_need_fields_witness :
  hasUpdate (sample.plan [] [sample.quietGroup]) true true
  = hasUpdate (sample.plan [] [sample.quietGroup]) false false.
Proof.
  apply (hasUpdate_flags_need_fields (sample.plan [] [sample.quietGroup]) true true).
  reflexivity.
Defined.

(** A single top-level field that is neither the revision nor the restart
    nonce counts, whatever the flags. *)
Theorem hasUpdate_single_content_field r restart force f :
  JobDiff.Fields (JobPlanResponse.Diff r) = [f] →
  FieldDiff.Name f ≠ revisionField →
  FieldDiff.Name f ≠ restartNonceField →
  hasUpdate r restart force = true.
Proof.
  intros Hfields H1%String.eqb_neq H2%String.eqb_neq. unfold hasUpdate.
  destruct (nonempty (JobDiff.Objects _)); [done |].
  rewrite Hfields. cbn [nonempty andb fieldDiffCounts].
  rewrite metaFieldName_commit, metaFieldName_restart, H1, H2. reflexivity.
Qed.

Lemma hasUpdate_single_content_field_witness :
  hasUpdate (sample.plan [sample.countChange] [sample.quietGroup]) false false = true.
Proof.
  apply (hasUpdate_single_content_field
           (sample.plan [sample.countChange] [sample.quietGroup]) false false
           sample.countChange); [reflexivity | discriminate | discriminate].
Defined.

(** The restart nonce alone is suppressed like the revision. *)
Lemma hasUpdate_restart_nonce_only_witness :
  hasUpdate (sample.plan [sample.restartChange] [sample.quietGroup]) false false
  = false.
Proof.
  apply (hasUpdate_restart_nonce_only
           (sample.plan [sample.restartChange] [sample.quietGroup])).
  split; [reflexivity |]. split.
  - exists sample.restartChange. split; reflexivity.
  - repeat constructor.
Defined.

End classifier_policy.

(** ** Query and write options *)

(** The options follow the source: the tests for an empty namespace and
    region change nothing, and reads and writes get the same scope. *)
Theorem options_follow_source src :
  getQueryOptsCtx src
  = {| QueryOptions.Namespace := Source.Namespace src;
       QueryOptions.Region := Source.Region src |}
  ∧ getWriteOptions src
    = {| WriteOptions.Namespace := Source.Namespace src;
         WriteOptions.Region := Source.Region src |}.
Proof.
  unfold getQueryOptsCtx, getWriteOptions.
  destruct (String.eqb (Source.Namespace src) "") eqn:Hns,
    (String.eqb (Source.Region src) "") eqn:Hregion; simpl;
    try apply String.eqb_eq in Hns; try apply String.eqb_eq in Hregion;
    by rewrite ?Hns, ?Hregion.
Qed.

(** ** The cluster state reader: errors, calls, and what comes back *)

Section reader_runs.

Context (c : Scheduler.t) (src : Source.t).

(** How a run of the loop ends: with a state after one [Info] per job, or
    with the error of the first job that cannot be fetched, after the
    [Info] calls up to that job.  The map objects are as before. *)
Lemma collectJobs_run joblist currentJobs w r w' :
  collectJobs c src joblist currentJobs w = (r, w') →
  maps w' = maps w ∧
  ((∃ state, r = Ok state ∧ fetchable c src joblist ∧
      calls w' = calls w ++
        map (λ stub, JobsInfo (JobListStub.Name stub) (getQueryOptsCtx src)) joblist)
   ∨ (∃ e pre stub post, r = Err e ∧ joblist = pre ++ stub :: post ∧
        fetchable c src pre ∧
        Scheduler.JobsInfo c (JobListStub.Name stub) (getQueryOptsCtx src) = inl e ∧
        calls w' = calls w ++
          map (λ stub, JobsInfo (JobListStub.Name stub) (getQueryOptsCtx src))
            (pre ++ [stub]))).
Proof.
  revert currentJobs w.
  induction joblist as [|job rest IH]; intros currentJobs w Hrun.
  - simpl in Hrun. injection Hrun as <- <-. split; [done |]. left.
    eexists. split; [done |]. split; [constructor | by rewrite app_nil_r].
  - simpl in Hrun.
    destruct (Scheduler.JobsInfo c (JobListStub.Name job) (getQueryOptsCtx src))
      as [err | j] eqn:Hinfo.
    { injection Hrun as <- <-. split; [done |]. right.
      exists err, [], job, rest. split_and!; try done. constructor. }
    assert (Hrest : ∃ cur, collectJobs c src rest cur
              (record (JobsInfo (JobListStub.Name job) (getQueryOptsCtx src)) w)
              = (r, w')).
    { destruct (size _ =? 0); [by eexists |].
      destruct (negb _); by eexists. }
    destruct Hrest as [cur Hrest].
    destruct (IH _ _ Hrest) as [Hmaps [(state & -> & Hall & Hcalls)
      | (e & pre & stub & post & -> & -> & Hpre & Hfail & Hcalls)]].
    + split; [done |]. left. exists state. split; [done |]. split.
      * constructor; [by exists j | done].
      * rewrite Hcalls. simpl. by rewrite <- app_assoc.
    + split; [done |]. right. exists e, (job :: pre), stub, post.
      split_and!; try done.
      * constructor; [by exists j | done].
      * rewrite Hcalls. simpl. by rewrite <- app_assoc.
Qed.

End reader_runs.

(** The state holds exactly the listed jobs whose metadata passes the two
    tests, each under its listed name, as [Info] answers it and with an
    empty [GitInfo]. *)
Theorem GetCurrentClusterState_exact c opts w joblist state w' :
  let src := GetCurrentClusterStateOptions.Source opts in
  Scheduler.JobsList c (getQueryOptsCtx src) = inr joblist →
  GetCurrentClusterState c opts w = (Ok state, w') →
  ∀ name ji,
    ClusterState.CurrentJobs state !! name = Some ji ↔
    ∃ stub j, stub ∈ joblist ∧ JobListStub.Name stub = name ∧
      Scheduler.JobsInfo c name (getQueryOptsCtx src) = inr j ∧
      ji = jobInfoOf j ∧ claimedBy src (entries w (Job.Meta j)).
Proof.
  intros src Hlist Hrun name ji. unfold GetCurrentClusterState in Hrun.
  fold src in Hrun. rewrite Hlist in Hrun. split.
  - intros Hin.
    destruct (collectJobs_sound _ _ _ _ _ _ _ Hrun name ji Hin) as [Hempty | ?];
      [by rewrite lookup_empty in Hempty | done].
  - intros (stub & j & Hin & Hname & Hinfo & -> & Hclaimed).
    apply (collectJobs_complete c src joblist ∅ _ state w' _ j Hrun Hinfo Hclaimed).
    left. by exists stub.
Qed.

Lemma GetCurrentClusterState_exact_witness :
  ∃ state,
    (GetCurrentClusterState (sample.scheduler sample.emptyPlan (None, None))
       {| GetCurrentClusterStateOptions.Source := sample.source false false false |}
       sample.world).1 = Ok state
    ∧ ClusterState.CurrentJobs state !! "other" = None.
Proof.
  set (opts := {| GetCurrentClusterStateOptions.Source :=
                     sample.source false false false |}).
  set (c := sample.scheduler sample.emptyPlan (None, None)).
  pose (run := GetCurrentClusterState c opts sample.world).
  pose (state := match run.1 with
                 | Ok state => state
                 | _ => {| ClusterState.CurrentJobs := ∅ |}
                 end).
  assert (Hlist : Scheduler.JobsList c (getQueryOptsCtx (sample.source false false false))
                  = inr [sample.stub "unmanaged"; sample.stub "web";
                         sample.stub "stray"; sample.stub "other"])
    by reflexivity.
  assert (Hrun : GetCurrentClusterState c opts sample.world = (Ok state, run.2))
    by (vm_compute; reflexivity).
  exists state. split; [by rewrite Hrun |].
  destruct (ClusterState.CurrentJobs state !! "other") as [ji |] eqn:Hother;
    [| reflexivity].
  apply (GetCurrentClusterState_exact c opts sample.world _ state run.2 Hlist Hrun)
    in Hother as (stub & j & _ & _ & Hinfo & _ & _ & Hid).
  injection Hinfo as <-. vm_compute in Hid. discriminate.
Defined.

(** All or nothing: a state comes back exactly when the listing and the
    fetch of every listed job succeed, wanted or not. *)
Theorem GetCurrentClusterState_all_or_nothing c opts w :
  let src := GetCurrentClusterStateOptions.Source opts in
  (∃ state, (GetCurrentClusterState c opts w).1 = Ok state) ↔
  ∃ joblist,
    Scheduler.JobsList c (getQueryOptsCtx src) = inr joblist ∧
    fetchable c src joblist.
Proof.
  intros src. unfold GetCurrentClusterState. fold src.
  destruct (Scheduler.JobsList c (getQueryOptsCtx src)) as [err | joblist].
  { split; [intros [state ?]; discriminate | intros (? & ? & _); discriminate]. }
  destruct (collectJobs c src joblist ∅ _) as [r w'] eqn:Hrun.
  apply collectJobs_run in Hrun as [_ [(state & -> & Hall & _)
    | (e & pre & stub & post & -> & -> & _ & Hfail & _)]].
  - split; [intros _; by exists joblist | intros _; by exists state].
  - split; [intros [state ?]; discriminate |].
    intros (joblist & [= <-] & Hall).
    apply Forall_app in Hall as [_ Hall]. apply Forall_cons in Hall as [[j Hj] _].
    congruence.
Qed.

(** An error of the reader is the error of the listing, or of the first
    listed job that cannot be fetched, as the scheduler gave it. *)
Theorem GetCurrentClusterState_error_source c opts w e :
  let src := GetCurrentClusterStateOptions.Source opts in
  (GetCurrentClusterState c opts w).1 = Err e →
  Scheduler.JobsList c (getQueryOptsCtx src) = inl e
  ∨ ∃ pre stub post,
      Scheduler.JobsList c (getQueryOptsCtx src) = inr (pre ++ stub :: post) ∧
      fetchable c src pre ∧
      Scheduler.JobsInfo c (JobListStub.Name stub) (getQueryOptsCtx src) = inl e.
Proof.
  intros src. unfold GetCurrentClusterState. fold src.
  destruct (Scheduler.JobsList c (getQueryOptsCtx src)) as [err | joblist].
  { simpl. intros [= ->]. by left. }
  destruct (collectJobs c src joblist ∅ _) as [r w'] eqn:Hrun.
  apply collectJobs_run in Hrun as [_ [(state & -> & _)
    | (e' & pre & stub & post & -> & -> & Hpre & Hfail & _)]].
  - discriminate.
  - simpl. intros [= <-]. right. by exists pre, stub, post.
Qed.

Lemma GetCurrentClusterState_error_source_witness :
  Scheduler.JobsInfo
    (scenario.scheduler None (inr sample.emptyPlan) None "stray") "stray"
    (getQueryOptsCtx (sample.source false false false))
  = inl "Unexpected response code: 500 (rpc error)".
Proof.
  pose (c := scenario.scheduler None (inr sample.emptyPlan) None "stray").
  pose (opts := {| GetCurrentClusterStateOptions.Source :=
                     sample.source false false false |}).
  destruct (GetCurrentClusterState_error_source c opts sample.world
              "Unexpected response code: 500 (rpc error)")
    as [Hlist | (pre & stub & post & Hlist & Hpre & Hfail)].
  - vm_compute. reflexivity.
  - discriminate.
  - reflexivity.
Defined.


(** For a source with an empty identifier, a listed job with metadata of
    its own and no source identifier passes the tests: a missing key reads
    as the empty string. *)
Theorem GetCurrentClusterState_empty_identifier c opts w joblist state w' stub j :
  let src := GetCurrentClusterStateOptions.Source opts in
  Source.ID src = "" →
  Scheduler.JobsList c (getQueryOptsCtx src) = inr joblist →
  GetCurrentClusterState c opts w = (Ok state, w') →
  stub ∈ joblist →
  Scheduler.JobsInfo c (JobListStub.Name stub) (getQueryOptsCtx src) = inr j →
  entries w (Job.Meta j) ≠ ∅ →
  entries w (Job.Meta j) !! metaKeySrcID = None →
  ClusterState.CurrentJobs state !! JobListStub.Name stub = Some (jobInfoOf j).
Proof.
  intros src Hid Hlist Hrun Hin Hinfo Hnonempty Hmissing.
  unfold GetCurrentClusterState in Hrun. fold src in Hrun. rewrite Hlist in Hrun.
  apply (collectJobs_complete c src joblist ∅ _ state w' _ j Hrun Hinfo).
  - rewrite entries_record. split; [done |]. unfold index.
    by rewrite Hmissing, Hid.
  - left. by exists stub.
Qed.

Lemma GetCurrentClusterState_empty_identifier_witness :
  ∃ state,
    (GetCurrentClusterState (scenario.scheduler None (inr sample.emptyPlan) None "")
       {| GetCurrentClusterStateOptions.Source := scenario.anonymous |}
       sample.world).1 = Ok state
    ∧ ClusterState.CurrentJobs state !! "legacy"
      = Some (jobInfoOf (sample.job "legacy" (Some 1%positive))).
Proof.
  set (opts := {| GetCurrentClusterStateOptions.Source := scenario.anonymous |}).
  set (c := scenario.scheduler None (inr sample.emptyPlan) None "").
  pose (run := GetCurrentClusterState c opts sample.world).
  pose (state := match run.1 with
                 | Ok state => state
                 | _ => {| ClusterState.CurrentJobs := ∅ |}
                 end).
  assert (Hrun : GetCurrentClusterState c opts sample.world = (Ok state, run.2))
    by (vm_compute; reflexivity).
  exists state. split; [by rewrite Hrun |].
  apply (GetCurrentClusterState_empty_identifier c opts sample.world
           [sample.stub "legacy"; sample.stub "web"; sample.stub "stray";
            sample.stub "other"] state run.2 (sample.stub "legacy")
           (sample.job "legacy" (Some 1%positive))).
  - reflexivity.
  - reflexivity.
  - exact Hrun.
  - left.
  - reflexivity.
  - intros Hempty. vm_compute in Hempty. discriminate.
  - vm_compute. reflexivity.
Defined.

(** ** The apply protocol: failures, calls, and the tags *)

Section apply_runs.

Context (c : Scheduler.t) (now : string) (src : Source.t).

Implicit Types (job : JobInfo.t) (restart : bool) (w : World).

Lemma assign_same l key value w (m : gmap string string) :
  maps w !! l = Some m → m !! key = Some value → assign l key value w = w.
Proof.
  intros Hl Hkey. unfold assign. simpl. rewrite Hl. simpl.
  rewrite (insert_id m) by done. rewrite insert_id by done. by destruct w.
Qed.

Lemma maps_assign l key value w :
  maps (assign l key value w) !! l = Some (<[key := value]> (entries w (Some l))).
Proof. unfold assign. simpl. by rewrite lookup_insert_eq. Qed.

(** After the tagging step the job refers to a map object that holds the
    tagged metadata. *)
Lemma claimJob_result job restart w :
  ∃ l,
    (claimJob now src job restart w).1 = setMeta job (Some l) ∧
    maps (claimJob now src job restart w).2 !! l
      = Some (taggedMetadata now src job restart
                (entries w (Job.Meta (JobInfo.Job job)))) ∧
    ∀ l', l ≠ l' → maps (claimJob now src job restart w).2 !! l' = maps w !! l'.
Proof.
  unfold claimJob.
  destruct (claimJob_metadata job w) as (l & w1 & -> & Hentries & Hframe & _ & _).
  exists l. cbv zeta. cbn [fst snd]. split; [done |]. split.
  - rewrite <- Hentries, <- tags_written.
    destruct restart; rewrite maps_assign, ?entries_assign; done.
  - intros l' Hne.
    destruct restart; rewrite !maps_assign_ne by done; by apply Hframe.
Qed.

Lemma claimJob_entries job restart w :
  entries (claimJob now src job restart w).2
    (Job.Meta (JobInfo.Job (claimJob now src job restart w).1))
  = taggedMetadata now src job restart (entries w (Job.Meta (JobInfo.Job job))).
Proof.
  destruct (claimJob_result job restart w) as (l & -> & Hl & _).
  simpl. by rewrite Hl.
Qed.

Lemma ensureNamespace_maps job w r w0 :
  ensureNamespace c src job w = (r, w0) → maps w0 = maps w.
Proof.
  unfold ensureNamespace. intros Hrun.
  destruct (Source.CreateNamespace src); [| by injection Hrun as <- <-].
  destruct (Job.Namespace (JobInfo.Job job)); [| by injection Hrun as <- <-].
  destruct (Scheduler.NamespacesRegister c _ _); by injection Hrun as <- <-.
Qed.

Lemma latestDeploymentStatus_maps job w r w2 :
  latestDeploymentStatus c src job w = (r, w2) → maps w2 = maps w.
Proof.
  unfold latestDeploymentStatus. intros Hrun.
  destruct (Job.ID (JobInfo.Job job)); [| by injection Hrun as <- <-].
  destruct (Scheduler.JobsLatestDeployment c _ _) as [deployment err].
  destruct (fatalStatusError err); [by injection Hrun as <- <- |].
  destruct deployment; by injection Hrun as <- <-.
Qed.

(** A plan that comes back was asked for the job as tagged, after calls
    that register no job. *)
Lemma planJob_ok job restart w resp job1 w1 :
  planJob c now src job restart w = (Ok resp, job1, w1) →
  ∃ l, calls w1 = calls w ++ l ++
         [JobsPlan (JobInfo.Job job1) (entries w1 (Job.Meta (JobInfo.Job job1)))
            true (getWriteOptions src)] ∧
       Forall (λ call, isSubmission call = false) l.
Proof.
  unfold planJob. intros Hrun.
  destruct (ensureNamespace c src job w) as [[err |] w0] eqn:Hns; [discriminate |].
  apply ensureNamespace_calls in Hns as (l & Hl & Hquiet).
  pose proof (claimJob_calls now src job restart w0) as Hclaim.
  destruct (claimJob now src job restart w0) as [job' w'].
  simpl in Hclaim.
  destruct (Scheduler.JobsPlan c _ _ _ _); [discriminate |].
  injection Hrun as _ <- <-. exists l. split; [| done].
  simpl. by rewrite Hclaim, Hl, app_assoc.
Qed.

(** What the last part of [UpdateJob] calls: nothing, or, for a source
    that is not paused, the registration of the job with its metadata. *)
Lemma submitJob_calls job resp restart deploymentStatus w r w3 :
  submitJob c src job resp restart deploymentStatus w = (r, w3) →
  maps w3 = maps w ∧
  (calls w3 = calls w
   ∨ Source.Paused src = false ∧
     calls w3 = calls w ++
       [JobsRegister (JobInfo.Job job) (entries w (Job.Meta (JobInfo.Job job)))
          (getWriteOptions src)]).
Proof.
  unfold submitJob. intros Hrun.
  destruct (hasUpdate resp restart (Source.Force src)); simpl in Hrun;
    [| injection Hrun as <- <-; auto].
  destruct (Source.Paused src); simpl in Hrun; [injection Hrun as <- <-; auto |].
  destruct (Scheduler.JobsRegister c _ _ _); injection Hrun as <- <-; auto.
Qed.

(** The calls of a whole run: calls that register no job, then at most
    one registration, made by a source that is not paused, of the very job
    and metadata that were planned, under the same options. *)
Lemma UpdateJob_calls job restart w :
  ∃ l, calls (UpdateJob c now src job restart w).2 = calls w ++ l ∧
    (Forall (λ call, isSubmission call = false) l
     ∨ Source.Paused src = false ∧
       ∃ pre j m q, l = pre ++ [JobsRegister j m q] ∧
         Forall (λ call, isSubmission call = false) pre ∧
         JobsPlan j m true q ∈ pre).
Proof.
  unfold UpdateJob.
  destruct (planJob c now src job restart w) as [[r job1] w1] eqn:Hplan.
  destruct r as [resp | err |];
    try (apply planJob_calls in Hplan as (l & Hl & Hq); exists l; by auto).
  apply planJob_ok in Hplan as (l1 & Hl1 & Hq1).
  destruct (latestDeploymentStatus c src job1 w1) as [r2 w2] eqn:Hstatus.
  pose proof (latestDeploymentStatus_maps _ _ _ _ Hstatus) as Hmaps.
  apply latestDeploymentStatus_calls in Hstatus as (l2 & Hl2 & Hq2).
  set (plan := JobsPlan (JobInfo.Job job1)
                 (entries w1 (Job.Meta (JobInfo.Job job1))) true
                 (getWriteOptions src)) in *.
  assert (Hpre : calls w2 = calls w ++ (l1 ++ [plan]) ++ l2)
    by by rewrite Hl2, Hl1, !app_assoc.
  assert (Hquiet : Forall (λ call, isSubmission call = false) ((l1 ++ [plan]) ++ l2)).
  { rewrite !Forall_app. split_and!; try done. by repeat constructor. }
  destruct r2 as [status | err |];
    [| by exists ((l1 ++ [plan]) ++ l2); auto ..].
  destruct (submitJob c src job1 resp restart status w2) as [r3 w3] eqn:Hsubmit.
  apply submitJob_calls in Hsubmit as [_ [Hsame | [Hpaused Hreg]]].
  - exists ((l1 ++ [plan]) ++ l2). simpl. rewrite Hsame. auto.
  - eexists. simpl. split; [by rewrite Hreg, Hpre, <- app_assoc |].
    right. split; [done |]. eexists _, _, _, _. split; [reflexivity |].
    split; [done |].
    assert (Hentries : entries w2 (Job.Meta (JobInfo.Job job1))
                       = entries w1 (Job.Meta (JobInfo.Job job1))).
    { unfold entries. by rewrite Hmaps. }
    rewrite Hentries. rewrite !elem_of_app. left; right. left.
Qed.

(** With [CreateNamespace], a job without a namespace is turned down
    before anything happens: no call, no tag, the job and every map object
    as they were. *)
Theorem UpdateJob_namespace_missing job restart w :
  Source.CreateNamespace src = true →
  Job.Namespace (JobInfo.Job job) = None →
  UpdateJob c now src job restart w
  = (Err "require a namespace to be set in conjunction with 'CreateNamespace'",
     job, w).
Proof.
  intros Hcreate Hns. unfold UpdateJob, planJob, ensureNamespace.
  by rewrite Hcreate, Hns.
Qed.

(** When the registration of the namespace fails, [UpdateJob] returns that
    error after this one call; the job is not tagged and is not planned. *)
Theorem UpdateJob_namespace_refused job restart w name err :
  Source.CreateNamespace src = true →
  Job.Namespace (JobInfo.Job job) = Some name →
  Scheduler.NamespacesRegister c
    {| Namespace.Name := name; Namespace.Meta := {[ metaKeyOps := "true" ]} |}
    (getWriteOptions src) = Some err →
  UpdateJob c now src job restart w
  = (Err err, job,
     {| maps := maps w;
        calls := calls w ++
          [NamespacesRegister
             {| Namespace.Name := name;
                Namespace.Meta := {[ metaKeyOps := "true" ]} |}
             (getWriteOptions src)] |}).
Proof.
  intros Hcreate Hns Hrefused. unfold UpdateJob, planJob, ensureNamespace.
  by rewrite Hcreate, Hns, Hrefused.
Qed.

(** When the plan fails, [UpdateJob] returns that error, and the job
    stays tagged: the tags were written into its metadata before the plan
    was asked for. *)
Theorem UpdateJob_plan_failure_keeps_tags job restart w w0 err :
  ensureNamespace c src job w = (None, w0) →
  let job1 := (claimJob now src job restart w0).1 in
  let w1 := (claimJob now src job restart w0).2 in
  let plan := JobsPlan (JobInfo.Job job1) (entries w1 (Job.Meta (JobInfo.Job job1)))
                true (getWriteOptions src) in
  Scheduler.JobsPlan c (JobInfo.Job job1) (entries w1 (Job.Meta (JobInfo.Job job1)))
    true (getWriteOptions src) = inl err →
  UpdateJob c now src job restart w = (Err err, job1, record plan w1)
  ∧ entries (record plan w1) (Job.Meta (JobInfo.Job job1))
    = taggedMetadata now src job restart (entries w (Job.Meta (JobInfo.Job job)))
  ∧ Forall (λ call, isSubmission call = false) (issued w (record plan w1)).
Proof.
  intros Hns job1 w1 plan Hplan. subst plan. split; [| split].
  - unfold UpdateJob, planJob. rewrite Hns. subst job1 w1.
    destruct (claimJob now src job restart w0) as [job1 w1]. simpl in *.
    by rewrite Hplan.
  - rewrite entries_record. subst job1 w1. rewrite claimJob_entries.
    unfold entries. by rewrite (ensureNamespace_maps _ _ _ _ Hns).
  - apply ensureNamespace_calls in Hns as (l & Hl & Hquiet).
    rewrite (issued_app w _ (l ++ [JobsPlan (JobInfo.Job job1)
               (entries w1 (Job.Meta (JobInfo.Job job1))) true
               (getWriteOptions src)])).
    + apply Forall_app. split; [done | by repeat constructor].
    + subst w1. simpl. by rewrite claimJob_calls, Hl, app_assoc.
Qed.

(** [UpdateJob] registers what it planned: a registration in the calls of
    a run is the last call, is made by a source that is not paused, and is
    for the job, the metadata and the options of a plan made before it. *)
Theorem UpdateJob_registers_what_it_planned job restart w j m q :
  JobsRegister j m q ∈ issued w (UpdateJob c now src job restart w).2 →
  Source.Paused src = false
  ∧ last (issued w (UpdateJob c now src job restart w).2) = Some (JobsRegister j m q)
  ∧ JobsPlan j m true q ∈ issued w (UpdateJob c now src job restart w).2.
Proof.
  destruct (UpdateJob_calls job restart w)
    as (l & Hl & [Hquiet | (Hpaused & pre & j' & m' & q' & -> & Hquiet & Hplan)]);
    rewrite (issued_app _ _ _ Hl); intros Hin.
  - rewrite Forall_forall in Hquiet. by apply Hquiet in Hin.
  - apply elem_of_app in Hin as [Hin | Hin].
    { rewrite Forall_forall in Hquiet. by apply Hquiet in Hin. }
    apply list_elem_of_singleton in Hin as [= -> -> ->].
    split; [done |]. split; [by rewrite last_snoc |].
    apply elem_of_app. by left.
Qed.

(** At most one job is registered in a run. *)
Theorem UpdateJob_registers_at_most_once job restart w :
  length (filter (λ call, isSubmission call = true)
            (issued w (UpdateJob c now src job restart w).2)) ≤ 1.
Proof.
  assert (Hnone : ∀ l, Forall (λ call, isSubmission call = false) l →
            filter (λ call, isSubmission call = true) l = []).
  { intros l Hl. induction Hl as [|call l Hcall _ IH]; [done |].
    rewrite filter_cons_False; [done | congruence]. }
  destruct (UpdateJob_calls job restart w)
    as (l & Hl & [Hquiet | (_ & pre & j & m & q & -> & Hquiet & _)]);
    rewrite (issued_app _ _ _ Hl).
  - rewrite Hnone by done. simpl. lia.
  - rewrite filter_app, Hnone by done. simpl. lia.
Qed.

(** For a source that is not paused, an update that is required is
    submitted once, after the plan and the status query, and the outcome
    is the answer of the scheduler: its error, or [Updated = true] with
    the status read before the submission. *)
Theorem UpdateJob_submits job restart w resp job1 w1 deploymentStatus w2 :
  Source.Paused src = false →
  planJob c now src job restart w = (Ok resp, job1, w1) →
  latestDeploymentStatus c src job1 w1 = (Ok deploymentStatus, w2) →
  hasUpdate resp restart (Source.Force src) = true →
  let submission :=
    JobsRegister (JobInfo.Job job1) (entries w1 (Job.Meta (JobInfo.Job job1)))
      (getWriteOptions src) in
  UpdateJob c now src job restart w
  = (match Scheduler.JobsRegister c (JobInfo.Job job1)
             (entries w1 (Job.Meta (JobInfo.Job job1))) (getWriteOptions src) with
     | Some err => Err err
     | None => Ok (updateJobInfo true deploymentStatus)
     end, job1,
     {| maps := maps w1; calls := calls w2 ++ [submission] |}).
Proof.
  intros Hpaused Hplan Hstatus Hupdate submission. subst submission.
  pose proof (latestDeploymentStatus_maps _ _ _ _ Hstatus) as Hmaps.
  assert (Hentries : entries w2 (Job.Meta (JobInfo.Job job1))
                     = entries w1 (Job.Meta (JobInfo.Job job1))).
  { unfold entries. by rewrite Hmaps. }
  unfold UpdateJob, submitJob. rewrite Hplan, Hstatus, Hupdate, Hpaused. simpl.
  rewrite Hentries. unfold record. rewrite Hmaps.
  by destruct (Scheduler.JobsRegister c _ _ _).
Qed.

(** [UpdateJob] leaves every map object other than the metadata of the
    job as it was. *)
Theorem UpdateJob_other_maps job restart w l :
  Job.Meta (JobInfo.Job (UpdateJob c now src job restart w).1.2) ≠ Some l →
  maps (UpdateJob c now src job restart w).2 !! l = maps w !! l.
Proof.
  unfold UpdateJob, planJob.
  destruct (ensureNamespace c src job w) as [[err |] w0] eqn:Hns;
    apply ensureNamespace_maps in Hns; simpl; [by rewrite Hns |].
  destruct (claimJob_result job restart w0) as (l0 & Hjob & _ & Hframe).
  destruct (claimJob now src job restart w0) as [job1 w1]. simpl in *.
  assert (Hw1 : Job.Meta (JobInfo.Job job1) ≠ Some l → maps w1 !! l = maps w !! l).
  { intros Hne. rewrite Hframe, Hns; [done |]. rewrite Hjob in Hne. simpl in Hne.
    congruence. }
  destruct (Scheduler.JobsPlan c _ _ _ _); simpl; [done |].
  destruct (latestDeploymentStatus c src job1 _) as [r2 w2] eqn:Hstatus.
  apply latestDeploymentStatus_maps in Hstatus. simpl in Hstatus.
  destruct r2 as [status | err |]; simpl; try (rewrite Hstatus; done).
  destruct (submitJob c src job1 _ restart status w2) as [r3 w3] eqn:Hsubmit.
  apply submitJob_calls in Hsubmit as [Hmaps _]. simpl.
  by rewrite Hmaps, Hstatus.
Qed.

(** The tagging step is idempotent: run again on the job it left, with the
    same source, flag and time, it changes neither the job nor the world. *)
Theorem claimJob_idempotent job restart w :
  let job' := (claimJob now src job restart w).1 in
  let w' := (claimJob now src job restart w).2 in
  claimJob now src job' restart w' = (job', w').
Proof.
  cbv zeta.
  destruct (claimJob_result job restart w) as (l & Hjob & Hl & _).
  destruct (claimJob now src job restart w) as [job' w']. simpl in *.
  destruct (taggedMetadata_lookup now src job restart
              (entries w (Job.Meta (JobInfo.Job job))))
    as (Hops & Hid & Hurl & Hcommit & Hnonce & _).
  subst job'. unfold claimJob. cbn [setMeta JobInfo.Job Job.Meta JobInfo.GitInfo].
  rewrite !(assign_same l _ _ w' _ Hl) by done.
  destruct restart; [| done].
  by rewrite (assign_same l _ _ w' _ Hl) by done.
Qed.

(** What the tagging step writes is what ownership asks for and what the
    reader tests: the tagged metadata is owned by a source, and passes the
    tests of the reader for a source, exactly when that source has the
    identifier of the tagging source. *)
Theorem claimJob_recognised job restart w src' :
  let m := entries (claimJob now src job restart w).2
             (Job.Meta (JobInfo.Job (claimJob now src job restart w).1)) in
  (owned src' m ↔ Source.ID src' = Source.ID src)
  ∧ (claimedBy src' m ↔ Source.ID src' = Source.ID src).
Proof.
  cbv zeta. rewrite claimJob_entries.
  destruct (taggedMetadata_lookup now src job restart
              (entries w (Job.Meta (JobInfo.Job job))))
    as (Hops & Hid & _).
  unfold owned, claimedBy, index. rewrite Hops, Hid. simpl. split.
  - split; [intros [_ [= ->]]; done | intros ->; done].
  - split; [intros [_ ->]; done |]. intros ->. split; [| done].
    intros Hempty. by rewrite Hempty, lookup_empty in Hops.
Qed.

End apply_runs.

Lemma UpdateJob_namespace_missing_witness :
  UpdateJob (sample.scheduler sample.emptyPlan (None, None))
    "2023-01-02T03:04:05.000000006Z" (sample.source true false false)
    sample.bare false sample.world
  = (Err "require a namespace to be set in conjunction with 'CreateNamespace'",
     sample.bare, sample.world).
Proof.
  apply (UpdateJob_namespace_missing
           (sample.scheduler sample.emptyPlan (None, None))
           "2023-01-02T03:04:05.000000006Z" (sample.source true false false)
           sample.bare false sample.world); reflexivity.
Defined.

Lemma UpdateJob_namespace_refused_witness :
  (UpdateJob (scenario.scheduler (Some "Permission denied") (inr sample.emptyPlan) None "")
     "2023-01-02T03:04:05.000000006Z" (sample.source true false false)
     sample.web false sample.world).1
  = (Err "Permission denied", sample.web).
Proof.
  rewrite (UpdateJob_namespace_refused
             (scenario.scheduler (Some "Permission denied") (inr sample.emptyPlan) None "")
             "2023-01-02T03:04:05.000000006Z" (sample.source true false false)
             sample.web false sample.world "ns1" "Permission denied");
    reflexivity.
Defined.

Lemma UpdateJob_plan_failure_keeps_tags_witness :
  let run := UpdateJob
               (scenario.scheduler None (inl "Failed to parse job") None "")
               "2023-01-02T03:04:05.000000006Z" (sample.source false false false)
               sample.web false sample.world in
  run.1.1 = Err "Failed to parse job"
  ∧ entries run.2 (Job.Meta (JobInfo.Job sample.web)) !! metaKeyOps = Some "true".
Proof.
  intros run.
  destruct (UpdateJob_plan_failure_keeps_tags
              (scenario.scheduler None (inl "Failed to parse job") None "")
              "2023-01-02T03:04:05.000000006Z" (sample.source false false false)
              sample.web false sample.world sample.world "Failed to parse job"
              eq_refl eq_refl) as (Hrun & Htags & _).
  subst run. rewrite Hrun. split; [reflexivity |].
  vm_compute. reflexivity.
Defined.

Lemma UpdateJob_registers_what_it_planned_witness :
  let run := UpdateJob (sample.scheduler (sample.plan [sample.countChange] []) (None, None))
               "2023-01-02T03:04:05.000000006Z" (sample.source true false false)
               sample.web false sample.world in
  last (issued sample.world run.2)
  = Some (JobsRegister (JobInfo.Job run.1.2)
            (entries run.2 (Job.Meta (JobInfo.Job run.1.2)))
            (getWriteOptions (sample.source true false false)))
  ∧ JobsPlan (JobInfo.Job run.1.2)
      (entries run.2 (Job.Meta (JobInfo.Job run.1.2))) true
      (getWriteOptions (sample.source true false false))
    ∈ issued sample.world run.2.
Proof.
  intros run.
  destruct (UpdateJob_registers_what_it_planned
              (sample.scheduler (sample.plan [sample.countChange] []) (None, None))
              "2023-01-02T03:04:05.000000006Z" (sample.source true false false)
              sample.web false sample.world
              (JobInfo.Job run.1.2)
              (entries run.2 (Job.Meta (JobInfo.Job run.1.2)))
              (getWriteOptions (sample.source true false false)))
    as (_ & Hlast & Hplan).
  - vm_compute. do 3 right. left.
  - split; [exact Hlast | exact Hplan].
Defined.

Lemma UpdateJob_submits_witness :
  (UpdateJob (scenario.scheduler None (inr (sample.plan [sample.countChange] []))
                (Some "Unexpected response code: 403 (Permission denied)") "")
     "2023-01-02T03:04:05.000000006Z" (sample.source false false false)
     sample.web false sample.world).1.1
  = Err "Unexpected response code: 403 (Permission denied)".
Proof.
  set (c := scenario.scheduler None (inr (sample.plan [sample.countChange] []))
              (Some "Unexpected response code: 403 (Permission denied)") "").
  set (src := sample.source false false false).
  pose (planned := planJob c "2023-01-02T03:04:05.000000006Z" src sample.web false
                     sample.world).
  pose (status := latestDeploymentStatus c src planned.1.2 planned.2).
  assert (Hpaused : Source.Paused src = false) by reflexivity.
  assert (Hplan : planJob c "2023-01-02T03:04:05.000000006Z" src sample.web false
                    sample.world
                  = (Ok (sample.plan [sample.countChange] []), planned.1.2, planned.2))
    by (vm_compute; reflexivity).
  assert (Hstatus : latestDeploymentStatus c src planned.1.2 planned.2
                    = (Ok "running", status.2))
    by (vm_compute; reflexivity).
  assert (Hupdate : hasUpdate (sample.plan [sample.countChange] []) false
                      (Source.Force src) = true) by reflexivity.
  rewrite (UpdateJob_submits c "2023-01-02T03:04:05.000000006Z" src sample.web false
             sample.world _ _ _ _ _ Hpaused Hplan Hstatus Hupdate).
  reflexivity.
Defined.

Lemma UpdateJob_other_maps_witness :
  maps (UpdateJob (sample.scheduler (sample.plan [sample.countChange] []) (None, None))
          "2023-01-02T03:04:05.000000006Z" (sample.source true false false)
          sample.web true sample.world).2 !! 2%positive
  = maps sample.world !! 2%positive.
Proof.
  apply (UpdateJob_other_maps
           (sample.scheduler (sample.plan [sample.countChange] []) (None, None))
           "2023-01-02T03:04:05.000000006Z" (sample.source true false false)
           sample.web true sample.world 2%positive).
  vm_compute. discriminate.
Defined.

Lemma UpdateJob_up_to_date_witness :
  (UpdateJob (sample.scheduler (sample.plan [sample.revisionChange] []) (None, None))
     "2023-01-02T03:04:05.000000006Z" (sample.source false false false)
     sample.web false sample.world).1.1
  = Ok (updateJobInfo false "").
Proof.
  set (c := sample.scheduler (sample.plan [sample.revisionChange] []) (None, None)).
  set (src := sample.source false false false).
  pose (planned := planJob c "2023-01-02T03:04:05.000000006Z" src sample.web false
                     sample.world).
  pose (status := latestDeploymentStatus c src planned.1.2 planned.2).
  assert (Hplan : planJob c "2023-01-02T03:04:05.000000006Z" src sample.web false
                    sample.world
                  = (Ok (sample.plan [sample.revisionChange] []), planned.1.2, planned.2))
    by (vm_compute; reflexivity).
  assert (Hstatus : latestDeploymentStatus c src planned.1.2 planned.2
                    = (Ok "", status.2))
    by (vm_compute; reflexivity).
  assert (Hsame : hasUpdate (sample.plan [sample.revisionChange] []) false
                    (Source.Force src) = false) by reflexivity.
  destruct (UpdateJob_up_to_date c "2023-01-02T03:04:05.000000006Z" src sample.web
              false sample.world _ _ _ _ _ Hplan Hstatus Hsame) as [Hrun _].
  rewrite Hrun. reflexivity.
Defined.

(** ** The event handler and the subscription loop, batch by batch *)

Section event_runs.

Implicit Types (e : Event.t) (events : list Event.t) (batch : Events.t)
  (batches : list Events.t) (names : list string).

(** A batch in which every event is about a job and decodes: the callback
    is called once per event, in the order of the batch, and the handler
    runs to the end. *)
Theorem eventHandler_notifies_in_order events names :
  Forall2 notifies events names →
  eventHandler events = (names, Finished).
Proof.
  induction 1 as [|e name events names Hnotifies _ IH]; [done |].
  cbn [eventHandler]. rewrite IH.
  destruct Hnotifies as [e job id Htype Hjob Hid | e dep Htype Hdep].
  - rewrite Hjob, Hid. by destruct Htype as [-> | ->].
  - by rewrite Htype, Hdep.
Qed.

Lemma eventHandler_notifies_in_order_witness :
  eventHandler [sample.registered "web"; scenario.deployed "api";
                sample.registered "db"]
  = (["web"; "api"; "db"], Finished).
Proof.
  apply (eventHandler_notifies_in_order
           [sample.registered "web"; scenario.deployed "api"; sample.registered "db"]
           ["web"; "api"; "db"]).
  repeat constructor.
  - eapply (notifies_job _ (sample.job "web" None)); [by left | done | done].
  - apply (notifies_deployment (scenario.deployed "api")
             {| Deployment.JobID := "api"; Deployment.Status := "successful" |});
      reflexivity.
  - eapply (notifies_job _ (sample.job "db" None)); [by left | done | done].
Defined.

(** Events of other kinds are passed over: taking them out of a batch
    changes neither the calls of the callback nor the way the run ends. *)
Theorem eventHandler_ignores_other_kinds events :
  eventHandler events = eventHandler (filter (λ e, watched e = true) events).
Proof.
  induction events as [|e rest IH]; [done |].
  destruct (watched e) eqn:Hwatched.
  - rewrite filter_cons_True by done. cbn [eventHandler]. by rewrite IH.
  - rewrite filter_cons_False by congruence.
    unfold watched in Hwatched. apply orb_false_iff in Hwatched as [Hjob Hdep].
    cbn [eventHandler]. by rewrite Hjob, Hdep.
Qed.

(** The handler works through a batch in order: on two runs of events it
    does the first and, when that run gets to its end, the second. *)
Theorem eventHandler_app events rest :
  eventHandler (events ++ rest)
  = match eventHandler events with
    | (names, Finished) =>
        (names ++ (eventHandler rest).1, (eventHandler rest).2)
    | stopped => stopped
    end.
Proof.
  induction events as [|e events IH]; [simpl; by destruct (eventHandler rest) |].
  rewrite <- app_comm_cons. cbn [eventHandler]. rewrite IH.
  destruct (eventHandler events) as [names [| |]],
    (eventHandler rest) as [later exit];
    repeat case_match; simplify_eq; done.
Qed.

(** The callbacks made before an event that does not decode are kept:
    the handler returns at that event with what it has called so far, and
    looks at nothing after it. *)
Theorem eventHandler_stops_at_decode_error events e rest names err :
  eventHandler events = (names, Finished) →
  (Event.Type_ e = "JobRegistered" ∨ Event.Type_ e = "JobDeregistered")
    ∧ Event.Job e = inl err
  ∨ Event.Type_ e = "DeploymentStatusUpdate" ∧ Event.Deployment e = inl err →
  eventHandler (events ++ e :: rest) = (names, Returned).
Proof.
  intros Hrun Hfails.
  assert (Hstop : eventHandler (e :: rest) = ([], Returned)).
  { destruct Hfails as [[Htype Hjob] | [Htype Hdep]].
    - by apply (eventHandler_job_decode_error e rest err).
    - by apply (eventHandler_deployment_decode_error e rest err). }
  revert names Hrun.
  induction events as [|e0 events IH]; intros names Hrun.
  - simpl in Hrun. by injection Hrun as <-.
  - rewrite <- app_comm_cons. cbn [eventHandler] in Hrun |- *.
    destruct (eventHandler events) as [names0 [| |]];
      [rewrite (IH names0 eq_refl) | |];
      repeat case_match; simplify_eq; done.
Qed.

Lemma eventHandler_stops_at_decode_error_witness :
  eventHandler [sample.registered "web"; scenario.evaluated; sample.malformed;
                sample.registered "api"]
  = (["web"], Returned).
Proof.
  apply (eventHandler_stops_at_decode_error
           [sample.registered "web"; scenario.evaluated] sample.malformed
           [sample.registered "api"] ["web"] "json: cannot unmarshal").
  - reflexivity.
  - left. split; [by left | reflexivity].
Defined.

(** ** The subscription loop *)

(** The handler calls the callback at most once per event. *)
Lemma eventHandler_bounded events :
  length (eventHandler events).1 ≤ length events.
Proof.
  induction events as [|e rest IH]; [done |].
  cbn [eventHandler]. destruct (eventHandler rest) as [names exit].
  repeat case_match; simpl in *; lia.
Qed.

(** Heartbeats are passed over: taking them out of the stream changes
    nothing. *)
Theorem subscriptionLoop_skips_heartbeats batches :
  subscriptionLoop batches
  = subscriptionLoop (filter (λ batch, Events.IsHeartbeat batch = false) batches).
Proof.
  induction batches as [|batch rest IH]; [done |].
  destruct (Events.IsHeartbeat batch) eqn:Hbeat.
  - rewrite filter_cons_False by congruence. cbn [subscriptionLoop].
    by rewrite Hbeat.
  - rewrite filter_cons_True by done. cbn [subscriptionLoop].
    by rewrite Hbeat, IH.
Qed.

(** The loop takes the batches in the order of delivery: on two runs of
    batches it does the first and, unless the handler panicked, the second. *)
Theorem subscriptionLoop_app batches rest :
  subscriptionLoop (batches ++ rest)
  = if (subscriptionLoop batches).2
    then ((subscriptionLoop batches).1 ++ (subscriptionLoop rest).1,
          (subscriptionLoop rest).2)
    else subscriptionLoop batches.
Proof.
  induction batches as [|batch batches IH];
    [simpl; by destruct (subscriptionLoop rest) |].
  rewrite <- app_comm_cons. cbn [subscriptionLoop]. rewrite IH.
  destruct (Events.IsHeartbeat batch); [done |].
  destruct (eventHandler (Events.Events batch)) as [names [| |]];
    destruct (subscriptionLoop batches) as [later [|]]; simpl;
    by rewrite ?app_assoc.
Qed.

(** The callback is called at most once per event received, and never
    for a heartbeat. *)
Theorem subscriptionLoop_bounded batches :
  length (subscriptionLoop batches).1
  ≤ length (concat (map Events.Events
              (filter (λ batch, Events.IsHeartbeat batch = false) batches))).
Proof.
  induction batches as [|batch rest IH]; [done |].
  cbn [subscriptionLoop].
  destruct (Events.IsHeartbeat batch) eqn:Hbeat.
  - by rewrite filter_cons_False by congruence.
  - rewrite filter_cons_True by done. simpl. rewrite length_app.
    pose proof (eventHandler_bounded (Events.Events batch)) as Hbatch.
    destruct (eventHandler (Events.Events batch)) as [names [| |]];
      destruct (subscriptionLoop rest) as [later running]; simpl in *;
      rewrite ?length_app; lia.
Qed.

(** After a decoding error the loop goes on: the events of the following
    batches reach the callback as if the failed batch had ended there. *)
Theorem subscriptionLoop_survives_decode_error events e later names err batches :
  eventHandler events = (names, Finished) →
  (Event.Type_ e = "JobRegistered" ∨ Event.Type_ e = "JobDeregistered")
    ∧ Event.Job e = inl err
  ∨ Event.Type_ e = "DeploymentStatusUpdate" ∧ Event.Deployment e = inl err →
  subscriptionLoop
    ({| Events.IsHeartbeat := false; Events.Events := events ++ e :: later |}
     :: batches)
  = (names ++ (subscriptionLoop batches).1, (subscriptionLoop batches).2).
Proof.
  intros Hrun Hfails.
  assert (Hstop : eventHandler (events ++ e :: later) = (names, Returned)).
  { assert (Hhere : eventHandler (e :: later) = ([], Returned)).
    { destruct Hfails as [[Htype Hjob] | [Htype Hdep]].
      - by apply (eventHandler_job_decode_error e later err).
      - by apply (eventHandler_deployment_decode_error e later err). }
    clear Hfails. revert names Hrun.
    induction events as [|e0 events IH]; intros names Hrun.
    - simpl in Hrun. by injection Hrun as <-.
    - rewrite <- app_comm_cons. cbn [eventHandler] in Hrun |- *.
      destruct (eventHandler events) as [names0 [| |]];
        [rewrite (IH names0 eq_refl) | |];
        repeat case_match; simplify_eq; done. }
  by apply subscriptionLoop_after_return.
Qed.

Lemma subscriptionLoop_survives_decode_error_witness :
  subscriptionLoop
    [sample.batch [sample.registered "web"; sample.malformed; sample.registered "db"];
     scenario.heartbeat;
     sample.batch [scenario.deployed "api"]]
  = (["web"; "api"], true).
Proof.
  apply (subscriptionLoop_survives_decode_error
           [sample.registered "web"] sample.malformed [sample.registered "db"]
           ["web"] "json: cannot unmarshal"
           [scenario.heartbeat; sample.batch [scenario.deployed "api"]]).
  - reflexivity.
  - left. split; [by left | reflexivity].
Defined.

End event_runs.
